(** * alfachatback: the gin/websocket chat server and its room hub

    A shallow embedding of the Go program of [bin/webdocks/chatgpt] (the
    second, complete listing: [handleSignup], [authMiddleware],
    [getRoomsHandler], [createRoomHandler], [joinRoomHandler],
    [getClientsHandler]), of [internal/chat/repository/staterepo] and of
    the published contract in [docs/docs.go].

    Package-level variables ([users], [rooms], [clients]) are threaded
    explicitly as a [Globals] record; a [gin.Context] is a record holding
    the request as the handlers read it and the reply as they write it. *)

From Stdlib Require Import ZArith.
From stdpp Require Import gmap strings list.

Local Open Scope Z_scope.
Local Open Scope string_scope.
Local Open Scope list_scope.

(** ** Go's [int] on a 64-bit target *)

Definition wrap64 (z : Z) : Z := (z + 2 ^ 63) mod 2 ^ 64 - 2 ^ 63.

Definition MaxInt64 : Z := 2 ^ 63 - 1.

(** [len(s)] of a slice, as an [int]. *)
Definition len {A : Type} (s : list A) : Z := Z.of_nat (length s).

(** [len(s)] of a string: its number of bytes. *)
Definition len_string (s : string) : Z := Z.of_nat (String.length s).

(** ** net/http status codes used by the handlers *)

Module http.
Definition StatusOK : Z := 200.
Definition StatusBadRequest : Z := 400.
Definition StatusUnauthorized : Z := 401.
Definition StatusNotFound : Z := 404.
Definition StatusInternalServerError : Z := 500.
End http.

(** ** Data model *)

Module User.
Record t : Type := mk
  { ID : Z; Login : string; Password : string; Token : string; Role : string }.

Definition with_ID (u : t) (id : Z) : t :=
  {| ID := id; Login := Login u; Password := Password u;
     Token := Token u; Role := Role u |}.
End User.

Module Room.
Record t : Type := mk { ID : string; Name : string }.
End Room.

Module Client.
Record t : Type := mk { ID : string; Name : string }.
End Client.

(** The in-memory storage: [var users], [var rooms], [var clients]. *)
Record Globals : Type := mkGlobals
  { users : list User.t; rooms : list Room.t; clients : list Client.t }.

Definition set_users (g : Globals) (us : list User.t) : Globals :=
  {| users := us; rooms := rooms g; clients := clients g |}.

Definition set_rooms (g : Globals) (rs : list Room.t) : Globals :=
  {| users := users g; rooms := rs; clients := clients g |}.

(** The values the variables are initialised with. *)
Definition init : Globals :=
  {| users := [];
     rooms := [Room.mk "1" "room1"; Room.mk "2" "room2"];
     clients := [Client.mk "1" "User1"; Client.mk "2" "User2"] |}.

(** ** The websocket connection

    The peer is a script: the frames it will deliver, in order; [None], or
    the end of the script, is a failing [ReadMessage] (peer closed, socket
    error).  [wbudget] is how many more [WriteMessage] calls the transport
    accepts ([None]: all of them).  [outbox] is what the peer receives. *)

Record Conn : Type := mkConn
  { incoming : list (option string);
    outbox : list string;
    wbudget : option nat;
    closed : bool }.

(** [conn.WriteMessage(websocket.TextMessage, data)]: [true] is [err == nil]. *)
Definition WriteMessage (c : Conn) (data : string) : bool * Conn :=
  match wbudget c with
  | Some O => (false, c)
  | Some (S n) =>
      (true, {| incoming := incoming c; outbox := outbox c ++ [data];
                wbudget := Some n; closed := closed c |})
  | None =>
      (true, {| incoming := incoming c; outbox := outbox c ++ [data];
                wbudget := None; closed := closed c |})
  end.

Definition set_incoming (c : Conn) (fs : list (option string)) : Conn :=
  {| incoming := fs; outbox := outbox c; wbudget := wbudget c; closed := closed c |}.

(** [conn.Close()]. *)
Definition Close (c : Conn) : Conn :=
  {| incoming := incoming c; outbox := outbox c; wbudget := wbudget c; closed := true |}.

(** Lines handed to package [log]. *)
Inductive LogLine : Type :=
| LogUpgradeFailed
| LogReadError
| LogMessage (username roomID msg : string)
| LogWriteError.

(** ** gin.Context *)

(** A request body as [c.BindJSON] sees it at each target type
    ([None]: BindJSON returned an error). *)
Record Payload : Type := mkPayload
  { bindUser : option User.t; bindRoom : option Room.t }.

(** What [c.JSON(code, obj)] is given. *)
Inductive Body : Type :=
| H (fields : list (string * string))        (* gin.H{...} *)
| OfUser (u : User.t)
| OfRoom (r : Room.t)
| OfRooms (rs : list Room.t)
| OfClients (cs : list Client.t).

Inductive Reply : Type :=
| JSON (code : Z) (obj : Body)
| Upgraded (ws : Conn) (lg : list LogLine)   (* 101; the session as it ended *)
| UpgradeFailed (lg : list LogLine).

Record Context : Type := mkContext
  { Header : gmap string string;    (* request headers *)
    Params : gmap string string;    (* path parameters *)
    Payload_ : Payload;             (* request body *)
    Socket : option Conn;           (* what upgrader.Upgrade yields; None: err *)
    Keys : gmap string string;      (* c.Set / c.Get *)
    Aborted : bool;                 (* c.Abort() *)
    Written : option Reply }.

Definition GetHeader (c : Context) (k : string) : string := default "" (Header c !! k).

Definition Param (c : Context) (k : string) : string := default "" (Params c !! k).

Definition Get (c : Context) (k : string) : option string := Keys c !! k.

Definition Set_ (c : Context) (k v : string) : Context :=
  {| Header := Header c; Params := Params c; Payload_ := Payload_ c;
     Socket := Socket c; Keys := <[k := v]> (Keys c);
     Aborted := Aborted c; Written := Written c |}.

Definition Abort (c : Context) : Context :=
  {| Header := Header c; Params := Params c; Payload_ := Payload_ c;
     Socket := Socket c; Keys := Keys c;
     Aborted := true; Written := Written c |}.

Definition reply (c : Context) (r : Reply) : Context :=
  {| Header := Header c; Params := Params c; Payload_ := Payload_ c;
     Socket := Socket c; Keys := Keys c;
     Aborted := Aborted c; Written := Some r |}.

(** A gin handler over the package-level variables. *)
Definition HandlerFunc : Type := Context → Globals → Context * Globals.

(** ** Handlers *)

(** [handleSignup] *)
Definition handleSignup : HandlerFunc := fun c g =>
  match bindUser (Payload_ c) with
  | None => (reply c (JSON http.StatusBadRequest (H [("error", "Invalid input")])), g)
  | Some user =>
      let user := User.with_ID user (wrap64 (len (users g) + 1)) in
      let g := set_users g (users g ++ [user]) in
      (reply c (JSON http.StatusOK (OfUser user)), g)
  end.

(** [getRoomsHandler] *)
Definition getRoomsHandler : HandlerFunc := fun c g =>
  if decide (len (rooms g) = 0)
  then (reply c (JSON http.StatusOK
                   (H [("message", "Ни одной комнаты не создано")])), g)
  else (reply c (JSON http.StatusOK (OfRooms (rooms g))), g).

(** [createRoomHandler] *)
Definition createRoomHandler : HandlerFunc := fun c g =>
  match bindRoom (Payload_ c) with
  | None => (reply c (JSON http.StatusBadRequest (H [("error", "Invalid input")])), g)
  | Some room =>
      let g := set_rooms g (rooms g ++ [room]) in
      (reply c (JSON http.StatusOK (OfRoom room)), g)
  end.

(** [getClientsHandler]: [roomID] is read and not used. *)
Definition getClientsHandler : HandlerFunc := fun c g =>
  let roomID := Param c "roomID" in
  (reply c (JSON http.StatusOK (OfClients (clients g))), g).

(** ** JWT verification and the auth middleware *)

(** [var jwtKey = []byte("secret_key")] *)
Definition jwtKey : string := "secret_key".

(** What [jwt.ParseWithClaims(tokenStr, claims, keyFunc)] leaves behind:
    [err != nil], [token.Valid], and [claims.Username] as decoded. *)
Record Parsed : Type := mkParsed
  { err : bool; Valid : bool; Username : string }.

Section Middleware.

(** The jwt-go library, applied to the token string and the key that the
    key function returns. *)
Variable ParseWithClaims : string → string → Parsed.

Definition Unauthorized (msg : string) : Reply :=
  JSON http.StatusUnauthorized (H [("error", msg)]).

(** [authMiddleware]; [next] is the rest of the handler chain, entered by
    [c.Next()] and skipped after [c.Abort()]. *)
Definition authMiddleware (next : HandlerFunc) : HandlerFunc := fun c g =>
  let authHeader := GetHeader c "Authorization" in
  if bool_decide (authHeader = "")
     || bool_decide (len_string authHeader ≤ 7)%Z
     || negb (bool_decide (String.substring 0 7 authHeader = "Bearer "))
  then
    (Abort (reply c (Unauthorized "Authorization header missing or invalid")), g)
  else
    let tokenStr := String.substring 7 (String.length authHeader - 7)%nat authHeader in
    let token := ParseWithClaims tokenStr jwtKey in
    if err token || negb (Valid token)
    then (Abort (reply c (Unauthorized "Invalid token")), g)
    else next (Set_ c "username" (Username token)) g.

End Middleware.

(** ** The websocket room handler *)

(** [fmt.Sprintf("%s: %s", username, msg)] *)
Definition Sprintf_echo (username msg : string) : string :=
  username +:+ ": " +:+ msg.

(** The [for] loop of [joinRoomHandler], by recursion on the frames the peer
    still has to deliver. *)
Fixpoint pump (username roomID : string) (frames : list (option string))
    (conn : Conn) : Conn * list LogLine :=
  match frames with
  | [] => (set_incoming conn [], [LogReadError])
  | None :: rest => (set_incoming conn rest, [LogReadError])
  | Some msg :: rest =>
      let conn := set_incoming conn rest in
      match WriteMessage conn (Sprintf_echo username msg) with
      | (false, conn) => (conn, [LogMessage username roomID msg; LogWriteError])
      | (true, conn) =>
          let '(conn, lg) := pump username roomID rest conn in
          (conn, LogMessage username roomID msg :: lg)
      end
  end.

(** [joinRoomHandler] *)
Definition joinRoomHandler : HandlerFunc := fun c g =>
  let roomID := Param c "roomID" in
  match Get c "username" with
  | None => (reply c (Unauthorized "User not authenticated"), g)
  | Some username =>
      match Socket c with
      | None => (reply c (UpgradeFailed [LogUpgradeFailed]), g)
      | Some conn =>
          let '(conn, lg) := pump username roomID (incoming conn) conn in
          (reply c (Upgraded (Close conn) lg), g)   (* defer conn.Close() *)
      end
  end.

(** Requests are served one goroutine each; the handlers meet only in the
    package-level variables, threaded here in arrival order. *)
Fixpoint serve (h : HandlerFunc) (cs : list Context) (g : Globals)
    : list Context * Globals :=
  match cs with
  | [] => ([], g)
  | c :: cs =>
      let '(c, g) := h c g in
      let '(cs, g) := serve h cs g in
      (c :: cs, g)
  end.

(** *** Observations on a websocket session *)

(** The text frames a peer script delivers before its first failing read. *)
Fixpoint sent (frames : list (option string)) : list string :=
  match frames with
  | Some msg :: rest => msg :: sent rest
  | _ => []
  end.

(** How many of [n] writes a transport with budget [b] accepts. *)
Definition accepted (b : option nat) (n : nat) : nat :=
  match b with None => n | Some k => Nat.min k n end.

(** The frames the server wrote to the peer of a finished request. *)
Definition inbound (c : Context) : list string :=
  match Written c with
  | Some (Upgraded ws _) => outbox ws
  | _ => []
  end.

(** A request to [/auth/ws/joinRoom/:roomID] that passed the middleware as
    [username], with a fresh socket whose peer follows [script]. *)
Definition join (username roomID : string) (script : list (option string)) : Context :=
  {| Header := ∅; Params := {[ "roomID" := roomID ]};
     Payload_ := mkPayload None None;
     Socket := Some (mkConn script [] None false);
     Keys := {[ "username" := username ]};
     Aborted := false; Written := None |}.

(** ** The router of [main] *)

Section Server.

(** jwt-go's verification, as in [authMiddleware], and [generateJWT]
    ([None]: signing returned an error).  [generateJWT] signs the login
    together with the expiry [time.Now() + 5 minutes], so the variable is the
    signer as it answers at one instant; two calls at different instants are
    two signers, and may give one login two different tokens. *)
Variable ParseWithClaims : string → string → Parsed.
Variable generateJWT : string → option string.

(** [handleSignin] *)
Definition handleSignin : HandlerFunc := fun c g =>
  match bindUser (Payload_ c) with
  | None => (reply c (JSON http.StatusBadRequest (H [("error", "Invalid input")])), g)
  | Some user =>
      match list_find (λ u, User.Login u = User.Login user
                            ∧ User.Password u = User.Password user) (users g) with
      | Some _ =>
          match generateJWT (User.Login user) with
          | None => (reply c (JSON http.StatusInternalServerError
                                (H [("error", "Error generating token")])), g)
          | Some token => (reply c (JSON http.StatusOK (H [("token", token)])), g)
          end
      | None => (reply c (Unauthorized "Invalid credentials"), g)
      end
  end.

(** The six routes of [main] whose handlers answer JSON or upgrade.  The
    other five are not among them: [r.Static("/assets", ...)], which serves
    files, the pages [GET /signin], [GET /auth/rooms] and
    [GET /auth/clients/:roomID], which render templates, and [GET /signout],
    which answers a constant; none of these writes a variable. *)
Inductive Route : Type :=
| POST_signin
| POST_signup
| GET_getRooms
| POST_createRoom
| GET_joinRoom
| GET_getClients.

(** [auth := r.Group("/auth"); auth.Use(authMiddleware)] *)
Definition route (r : Route) : HandlerFunc :=
  match r with
  | POST_signin => handleSignin
  | POST_signup => handleSignup
  | GET_getRooms => authMiddleware ParseWithClaims getRoomsHandler
  | POST_createRoom => authMiddleware ParseWithClaims createRoomHandler
  | GET_joinRoom => authMiddleware ParseWithClaims joinRoomHandler
  | GET_getClients => authMiddleware ParseWithClaims getClientsHandler
  end.

(** The variables after a history of requests that are served one after
    the other, each finished before the next begins.  The handlers take no
    lock, so requests that overlap are not histories of this kind. *)
Definition after (reqs : list (Route * Context)) (g : Globals) : Globals :=
  foldl (λ g rc, (route rc.1 rc.2 g).2) g reqs.

End Server.

(** ** The published contract ([docs.docTemplate]) *)

Module docs.
(** The response codes each path and method declares under ["responses"]. *)
Definition docTemplate : list (string * string * list Z) :=
  [ ("/admin/users", "get", [200; 404]);
    ("/auth/user", "get", [200; 404]);
    ("/auth/ws/createRoom", "post", [201; 400; 500]);
    ("/auth/ws/getClients/{roomID}", "get", [200; 404]);
    ("/auth/ws/getRooms", "get", [200; 404]);
    ("/signin", "post", [200; 400; 500]);
    ("/signup", "post", [201; 400; 500]) ].

Definition responses (path method : string) : list Z :=
  match list_find (λ e, e.1 = (path, method)) docTemplate with
  | Some (_, (_, codes)) => codes
  | None => []
  end.
End docs.

(** The status code the handler answered with; an upgrade answers 101
    Switching Protocols.  A refused upgrade is answered by the upgrader
    itself, with an error of its own choosing. *)
Definition status (c : Context) : option Z :=
  match Written c with
  | Some (JSON code _) => Some code
  | Some (Upgraded _ _) => Some 101%Z
  | _ => None
  end.

(** ** The presence store ([staterepo]) *)

Module staterepo.

(** Modelled from the spec: [models.State] is imported by [staterepo.go]
    and is not among the sources.  The spec's PresenceRecord:
    { userID, roomID | none, lastSeen timestamp }. *)
Record State : Type := mkState
  { userID : Z; roomID : option string; lastSeen : Z }.

(** [type stateStore struct { states map[int]models.State }] *)
Record stateStore : Type := mkStore { states : gmap Z State }.

(** [NewStateDB] *)
Definition NewStateDB : stateStore := {| states := ∅ |}.

(** Modelled from the spec: the default "never seen" value; a user with no
    record is in no room and has no last-seen time. *)
Definition neverSeen (uid : Z) : State :=
  {| userID := uid; roomID := None; lastSeen := 0 |}.

(** Modelled from the spec: [Get] is not among the sources.
    "Get(userID) -> returns current record or a default never-seen value;
    never fails". *)
Definition Get (s : stateStore) (uid : Z) : State :=
  default (neverSeen uid) (states s !! uid).

(** Modelled from the spec: "SetOnline(userID, roomID) -> overwrites/creates
    the PresenceRecord" (roomID set, timestamp refreshed). *)
Definition SetOnline (s : stateStore) (uid : Z) (room : string) (now : Z) : stateStore :=
  {| states := <[uid := mkState uid (Some room) now]> (states s) |}.

(** Modelled from the spec: "SetOffline(userID) -> clears roomID, keeps
    record" (timestamp refreshed). *)
Definition SetOffline (s : stateStore) (uid : Z) (now : Z) : stateStore :=
  {| states := alter (λ r, mkState (userID r) None now) uid (states s) |}.

(** The writes the hub issues against a store. *)
Inductive Op : Type :=
| Online (uid : Z) (room : string) (now : Z)
| Offline (uid : Z) (now : Z).

Definition apply (s : stateStore) (o : Op) : stateStore :=
  match o with
  | Online uid room now => SetOnline s uid room now
  | Offline uid now => SetOffline s uid now
  end.

Definition run (ops : list Op) : stateStore := foldl apply NewStateDB ops.

End staterepo.

(** ** The outbound queue of a connection *)

Module Connection.

(** Modelled from the spec: no bounded outbound queue is among the sources
    ([joinRoomHandler] writes with [conn.WriteMessage] directly).  "Each
    Connection has a bounded outbound queue (fixed capacity, e.g. 64
    messages)"; [queue] is oldest first; [warned] says that the current
    window already has its slow-consumer warning. *)
Definition capacity : nat := 64.

Record t (M : Type) : Type := mk
  { queue : list M; closed : bool; warned : bool; warnings : nat }.
Arguments mk {M}.
Arguments queue {M}.
Arguments closed {M}.
Arguments warned {M}.
Arguments warnings {M}.

Inductive Error : Type := ConnectionClosed.

Definition new {M : Type} : t M := mk [] false false 0.

(** Modelled from the spec: "Send(message) -> fails with ConnectionClosed if
    already closed"; "if the queue is full ... the oldest queued message is
    discarded, a single slow-consumer warning is recorded once per window,
    and the new message is enqueued". *)
Definition Send {M : Type} (c : t M) (m : M) : t M * option Error :=
  if closed c then (c, Some ConnectionClosed)
  else if decide (length (queue c) < capacity)%nat
  then (mk (queue c ++ [m]) false (warned c) (warnings c), None)
  else (mk (tail (queue c) ++ [m]) false true
           (if warned c then warnings c else S (warnings c)), None).

(** A new warning window opens. *)
Definition tick {M : Type} (c : t M) : t M :=
  mk (queue c) (closed c) false (warnings c).

(** Sends with no drain in between. *)
Definition SendAll {M : Type} (c : t M) (ms : list M) : t M :=
  foldl (λ c m, (Send c m).1) c ms.

End Connection.

(** ** The hub as the spec words it, over the program's state *)

(** The identifier a room is resolved by. *)
Definition resolves (g : Globals) (roomID : string) : Prop :=
  roomID ∈ Room.ID <$> rooms g.

(** The registry invariant of the spec: at most one room per roomID. *)
Definition one_room_per_id (g : Globals) : Prop := NoDup (Room.ID <$> rooms g).

(** The users online in a room: the users of the sessions open on it. *)
Definition online (live : list Context) (roomID : string) : list string :=
  omap (λ c, if decide (Param c "roomID" = roomID) then Get c "username" else None) live.

(** The client ids a members listing reports. *)
Definition listed (c : Context) : list string :=
  match Written c with
  | Some (JSON _ (OfClients cs)) => Client.ID <$> cs
  | _ => []
  end.

(** A join is rejected when the request ends in an HTTP error, with no
    upgraded connection. *)
Definition rejected (c : Context) : Prop :=
  match Written c with
  | Some (JSON code _) => (400 ≤ code)%Z
  | Some (UpgradeFailed _) => True
  | _ => False
  end.

(** The frames a session hands to its peer: what was there, then the echo of
    the peer's own messages, as many as the transport accepted. *)
Definition echoes (username : string) (conn : Conn) : list string :=
  outbox conn ++
  (Sprintf_echo username
     <$> take (accepted (wbudget conn) (length (sent (incoming conn))))
              (sent (incoming conn))).

(** ** Requests used in the examples *)

Definition blank : Context :=
  {| Header := ∅; Params := ∅; Payload_ := mkPayload None None;
     Socket := None; Keys := ∅; Aborted := false; Written := None |}.

(** A signup request carrying [login] and [password]. *)
Definition signup (login password : string) : Context :=
  {| Header := ∅; Params := ∅;
     Payload_ := mkPayload (Some (User.mk 0 login password "" "")) None;
     Socket := None; Keys := ∅; Aborted := false; Written := None |}.

(** A request to create the room [id], [name]. *)
Definition createRoom (id name : string) : Context :=
  {| Header := ∅; Params := ∅;
     Payload_ := mkPayload None (Some (Room.mk id name));
     Socket := None; Keys := ∅; Aborted := false; Written := None |}.

(** A request for the clients of [roomID]. *)
Definition getClients (roomID : string) : Context :=
  {| Header := ∅; Params := {[ "roomID" := roomID ]};
     Payload_ := mkPayload None None;
     Socket := None; Keys := ∅; Aborted := false; Written := None |}.

(** The members listing as the spec words it: the listing for [roomID]
    reports exactly the users online in that room. *)
Definition lists_members_of (live : list Context) (g : Globals) (roomID : string) : Prop :=
  list_to_set (listed (getClientsHandler (getClients roomID) g).1)
    =@{gset string} list_to_set (online live roomID).

(** A request with the given Authorization header. *)
Definition authorized (header : string) : Context :=
  {| Header := {[ "Authorization" := header ]}; Params := ∅;
     Payload_ := mkPayload None None;
     Socket := None; Keys := ∅; Aborted := false; Written := None |}.

(** A verifier that accepts the one token ["good"], issued to alice. *)
Definition accept_good (tokenStr key : string) : Parsed :=
  if decide (tokenStr = "good" ∧ key = jwtKey)
  then mkParsed false true "alice"
  else mkParsed true false "".

(** Room "r1" with members A and B; A sends "hi", B sends nothing. *)
Definition room_r1 : list Context :=
  [join "A" "r1" [Some "hi"]; join "B" "r1" []].

(** ** Frames on the wire, with where they come from *)









(** A join to a room the registry does not hold. *)
Definition unknown_42 : Context := join "A" "unknown-42" [Some "hi"].

(** ** Notions used to state what the routes do *)

(** The token string [authMiddleware] cuts out of the Authorization header:
    [authHeader[7:]]. *)
Definition bearer (c : Context) : string :=
  String.substring 7 (String.length (GetHeader c "Authorization") - 7)%nat
    (GetHeader c "Authorization").

(** The middleware lets the request through. *)
Definition verified (P : string → string → Parsed) (c : Context) : Prop :=
  (7 < len_string (GetHeader c "Authorization"))%Z ∧
  String.substring 0 7 (GetHeader c "Authorization") = "Bearer " ∧
  err (P (bearer c) jwtKey) = false ∧
  Valid (P (bearer c) jwtKey) = true.

(** The test of the loop of [handleSignin]: the stored user [r] has the
    login and the password of the submitted [u]. *)
Definition matches (u r : User.t) : Prop :=
  User.Login r = User.Login u ∧ User.Password r = User.Password u.

(** The reply of a signin whose credentials matched. *)
Definition token_reply (J : string → option string) (login : string) : Reply :=
  match J login with
  | Some token => JSON http.StatusOK (H [("token", token)])
  | None => JSON http.StatusInternalServerError (H [("error", "Error generating token")])
  end.

(** The status codes each route is seen to answer with. *)
Definition answers (r : Route) : list Z :=
  match r with
  | POST_signin => [200; 400; 401; 500]
  | POST_signup => [200; 400]
  | GET_getRooms => [200; 401]
  | POST_createRoom => [200; 400; 401]
  | GET_joinRoom => [101; 401]
  | GET_getClients => [200; 401]
  end%Z.

(** A signin request carrying [login] and [password]. *)
Definition signin (login password : string) : Context :=
  {| Header := ∅; Params := ∅;
     Payload_ := mkPayload (Some (User.mk 0 login password "" "")) None;
     Socket := None; Keys := ∅; Aborted := false; Written := None |}.

(** A request with the Authorization header ["Bearer good"] that creates
    the room [id], [name]. *)
Definition createRoom_as_alice (id name : string) : Context :=
  {| Header := {[ "Authorization" := "Bearer good" ]}; Params := ∅;
     Payload_ := mkPayload None (Some (Room.mk id name));
     Socket := None; Keys := ∅; Aborted := false; Written := None |}.

(** A join under the Authorization header ["Bearer good"], the peer
    following [script] and the transport accepting [budget] writes. *)
Definition join_as_alice (roomID : string) (script : list (option string))
    (budget : option nat) : Context :=
  {| Header := {[ "Authorization" := "Bearer good" ]};
     Params := {[ "roomID" := roomID ]};
     Payload_ := mkPayload None None;
     Socket := Some (mkConn script [] budget false);
     Keys := ∅; Aborted := false; Written := None |}.

(** A join that passed the middleware as [username], on a transport that
    accepts [budget] writes. *)
Definition join_with_budget (username roomID : string)
    (script : list (option string)) (budget : nat) : Context :=
  {| Header := ∅; Params := {[ "roomID" := roomID ]};
     Payload_ := mkPayload None None;
     Socket := Some (mkConn script [] (Some budget) false);
     Keys := {[ "username" := username ]};
     Aborted := false; Written := None |}.

(** A signer that issues the token ["good"] to everybody. *)
Definition issue_good (login : string) : option string := Some "good".

(** The signer of a later instant: the same claims with a later expiry sign
    to another token. *)
Definition issue_later (login : string) : option string := Some "good-later".

(** Membership in a list that is written out. *)
Ltac in_list := solve [apply list_elem_of_In; cbn; auto 10].

(** * Properties *)

(** ** Signup *)

Lemma wrap64_id (z : Z) : (- 2 ^ 63 ≤ z < 2 ^ 63)%Z → wrap64 z = z.
Proof. intros Hz. unfold wrap64. rewrite Z.mod_small; lia. Qed.

Lemma len_app {A : Type} (l k : list A) : (len (l ++ k) = len l + len k)%Z.
Proof. unfold len. rewrite length_app. lia. Qed.

Lemma len_singleton {A : Type} (x : A) : len [x] = 1%Z.
Proof. reflexivity. Qed.

Lemma len_nonneg {A : Type} (l : list A) : (0 ≤ len l)%Z.
Proof. unfold len. lia. Qed.

(** The next identifier does not wrap as long as the slice is shorter than
    the largest [int], which holds of every slice the runtime can hold. *)
Lemma next_ID (g : Globals) :
  (len (users g) < MaxInt64)%Z → wrap64 (len (users g) + 1) = (len (users g) + 1)%Z.
Proof.
  intros Hlt. apply wrap64_id. pose proof (len_nonneg (users g)).
  unfold MaxInt64 in Hlt. lia.
Qed.

Lemma handleSignup_ok (c : Context) (g : Globals) (u : User.t) :
  bindUser (Payload_ c) = Some u →
  (len (users g) < MaxInt64)%Z →
  handleSignup c g =
    (reply c (JSON http.StatusOK (OfUser (User.with_ID u (len (users g) + 1)))),
     set_users g (users g ++ [User.with_ID u (len (users g) + 1)])).
Proof.
  intros Hb Hlt. unfold handleSignup. rewrite Hb. cbn zeta.
  by rewrite (next_ID g Hlt).
Qed.

(** C8. For every well-formed signup request [handleSignup] answers 200 with
    the user it stored; the stored user is the submitted one with its ID set
    to the number of registered users plus one; it is appended to [users]
    whatever logins are there already, so that a second signup with the same
    login leaves two records, equal in login and distinct in ID. *)
Theorem handleSignup_appends_without_uniqueness
    (c c2 : Context) (g : Globals) (u u2 : User.t) :
  bindUser (Payload_ c) = Some u →
  bindUser (Payload_ c2) = Some u2 →
  User.Login u2 = User.Login u →
  (len (users g) + 1 < MaxInt64)%Z →
  ∃ r r2 : User.t,
    Written (handleSignup c g).1 = Some (JSON http.StatusOK (OfUser r)) ∧
    r = User.with_ID u (len (users g) + 1) ∧
    User.ID r = (len (users g) + 1)%Z ∧
    users (handleSignup c g).2 = users g ++ [r] ∧
    rooms (handleSignup c g).2 = rooms g ∧
    Written (handleSignup c2 (handleSignup c g).2).1
      = Some (JSON http.StatusOK (OfUser r2)) ∧
    users (handleSignup c2 (handleSignup c g).2).2 = users g ++ [r; r2] ∧
    User.Login r2 = User.Login r ∧
    User.ID r2 = (User.ID r + 1)%Z ∧
    r2 ≠ r.
Proof.
  intros Hb Hb2 Hlogin Hlt.
  assert (Hlt1 : (len (users g) < MaxInt64)%Z) by lia.
  rewrite (handleSignup_ok c g u Hb Hlt1). cbn [fst snd].
  assert (Hlt2 : (len (users (set_users g
            (users g ++ [User.with_ID u (len (users g) + 1)]))) < MaxInt64)%Z).
  { cbn [users set_users]. rewrite len_app, len_singleton. lia. }
  rewrite (handleSignup_ok c2 _ u2 Hb2 Hlt2).
  cbn [fst snd users rooms set_users Written reply].
  rewrite len_app, len_singleton.
  eexists _, _. repeat split; try reflexivity.
  - by rewrite <- app_assoc.
  - simpl. congruence.
  - intros Heq. apply (f_equal User.ID) in Heq. simpl in Heq. lia.
Qed.

Lemma handleSignup_appends_without_uniqueness_witness :
  ∃ r r2 : User.t,
    Written (handleSignup (signup "bob" "pw1") init).1
      = Some (JSON http.StatusOK (OfUser r)) ∧
    r = User.with_ID (User.mk 0 "bob" "pw1" "" "") (len (users init) + 1) ∧
    User.ID r = (len (users init) + 1)%Z ∧
    users (handleSignup (signup "bob" "pw1") init).2 = users init ++ [r] ∧
    rooms (handleSignup (signup "bob" "pw1") init).2 = rooms init ∧
    Written (handleSignup (signup "bob" "pw2")
               (handleSignup (signup "bob" "pw1") init).2).1
      = Some (JSON http.StatusOK (OfUser r2)) ∧
    users (handleSignup (signup "bob" "pw2")
             (handleSignup (signup "bob" "pw1") init).2).2
      = users init ++ [r; r2] ∧
    User.Login r2 = User.Login r ∧
    User.ID r2 = (User.ID r + 1)%Z ∧
    r2 ≠ r.
Proof.
  apply (handleSignup_appends_without_uniqueness
           (signup "bob" "pw1") (signup "bob" "pw2") init
           (User.mk 0 "bob" "pw1" "" "") (User.mk 0 "bob" "pw2" "" ""));
    [reflexivity | reflexivity | reflexivity | vm_compute; reflexivity].
Defined.

(** A malformed body is the one case in which signup does not answer 200. *)
Lemma handleSignup_bad_input (c : Context) (g : Globals) :
  bindUser (Payload_ c) = None →
  status (handleSignup c g).1 = Some http.StatusBadRequest ∧ (handleSignup c g).2 = g.
Proof. intros Hb. unfold handleSignup. by rewrite Hb. Qed.

(** ** Rooms *)

Lemma len_zero_nil {A : Type} (l : list A) : len l = 0%Z ↔ l = [].
Proof.
  unfold len. split.
  - intros Hl. apply length_zero_iff_nil. lia.
  - by intros ->.
Qed.

(** C10. [getRoomsHandler] answers 200 in every state and never 404: the
    array of rooms when there is a room, a message object when there is
    none; it writes no variable.  The published contract of
    [/auth/ws/getRooms] declares a 404 all the same. *)
Theorem getRoomsHandler_always_200 (c : Context) (g : Globals) :
  status (getRoomsHandler c g).1 = Some http.StatusOK ∧
  status (getRoomsHandler c g).1 ≠ Some http.StatusNotFound ∧
  (getRoomsHandler c g).2 = g ∧
  (rooms g ≠ [] →
     Written (getRoomsHandler c g).1 = Some (JSON http.StatusOK (OfRooms (rooms g)))) ∧
  (rooms g = [] →
     Written (getRoomsHandler c g).1
       = Some (JSON http.StatusOK (H [("message", "Ни одной комнаты не создано")]))) ∧
  http.StatusNotFound ∈ docs.responses "/auth/ws/getRooms" "get".
Proof.
  unfold getRoomsHandler.
  destruct (decide (len (rooms g) = 0%Z)) as [Hz | Hnz]; cbn.
  - apply len_zero_nil in Hz. repeat split; try done.
    unfold docs.responses; cbn. set_solver.
  - repeat split; try done.
    + intros Hnil. by apply len_zero_nil in Hnil.
    + unfold docs.responses; cbn. set_solver.
Qed.

(** C4, as stated, fails: the initial registry has one room per id, and
    creating a room under the id "1" that is already there answers 200 with
    the new room and leaves two rooms with that id. *)
Lemma createRoom_duplicates_id :
  one_room_per_id init ∧
  Written (createRoomHandler (createRoom "1" "again") init).1
    = Some (JSON http.StatusOK (OfRoom (Room.mk "1" "again"))) ∧
  rooms (createRoomHandler (createRoom "1" "again") init).2
    = [Room.mk "1" "room1"; Room.mk "2" "room2"; Room.mk "1" "again"] ∧
  ¬ one_room_per_id (createRoomHandler (createRoom "1" "again") init).2.
Proof.
  repeat split; try reflexivity.
  - unfold one_room_per_id. cbn. compute_done.
  - unfold one_room_per_id. cbn. intros Hnd.
    apply NoDup_cons in Hnd as [Hnotin _]. apply Hnotin. compute_done.
Qed.

(** C4, amended. [createRoomHandler] looks nothing up: every well-formed
    request answers 200 with the submitted room and appends it to [rooms],
    which grows by exactly one entry; when the id is already in the registry
    the registry then holds more than one room under it. *)
Theorem createRoomHandler_appends (c : Context) (g : Globals) (room : Room.t) :
  bindRoom (Payload_ c) = Some room →
  createRoomHandler c g
    = (reply c (JSON http.StatusOK (OfRoom room)), set_rooms g (rooms g ++ [room])) ∧
  len (rooms (createRoomHandler c g).2) = (len (rooms g) + 1)%Z ∧
  users (createRoomHandler c g).2 = users g ∧
  (resolves g (Room.ID room) → ¬ one_room_per_id (createRoomHandler c g).2).
Proof.
  intros Hb. unfold createRoomHandler. rewrite Hb. cbn.
  repeat split.
  - by rewrite len_app, len_singleton.
  - unfold resolves, one_room_per_id. cbn. intros Hin Hnd.
    rewrite fmap_app in Hnd. apply NoDup_app in Hnd as (_ & Hdisj & _).
    apply (Hdisj _ Hin). cbn. apply list_elem_of_singleton. reflexivity.
Qed.

Lemma createRoomHandler_appends_witness :
  createRoomHandler (createRoom "1" "again") init
    = (reply (createRoom "1" "again") (JSON http.StatusOK (OfRoom (Room.mk "1" "again"))),
       set_rooms init (rooms init ++ [Room.mk "1" "again"])) ∧
  len (rooms (createRoomHandler (createRoom "1" "again") init).2)
    = (len (rooms init) + 1)%Z ∧
  users (createRoomHandler (createRoom "1" "again") init).2 = users init ∧
  (resolves init (Room.ID (Room.mk "1" "again")) →
     ¬ one_room_per_id (createRoomHandler (createRoom "1" "again") init).2).
Proof.
  apply (createRoomHandler_appends (createRoom "1" "again") init (Room.mk "1" "again")).
  reflexivity.
Defined.

(** ** The clients listing *)

Lemma joinRoomHandler_globals (c : Context) (g : Globals) :
  (joinRoomHandler c g).2 = g.
Proof.
  unfold joinRoomHandler.
  destruct (Get c "username") as [username|]; [|done].
  destruct (Socket c) as [conn|]; [|done].
  by destruct (pump username (Param c "roomID") (incoming conn) conn).
Qed.

Lemma authMiddleware_clients P (h : HandlerFunc) (c : Context) (g : Globals) :
  (∀ c g, clients (h c g).2 = clients g) →
  clients (authMiddleware P h c g).2 = clients g.
Proof.
  intros Hh. unfold authMiddleware.
  repeat match goal with |- context [if ?b then _ else _] => destruct b end;
    cbn [snd]; auto.
Qed.

(** No route writes [clients]. *)
Lemma route_clients P J (r : Route) (c : Context) (g : Globals) :
  clients (route P J r c g).2 = clients g.
Proof.
  assert (Hsignin : ∀ c g, clients (handleSignin J c g).2 = clients g).
  { intros c' g'. unfold handleSignin.
    repeat match goal with |- context [match ?x with _ => _ end] => destruct x end;
      reflexivity. }
  assert (Hsignup : ∀ c g, clients (handleSignup c g).2 = clients g).
  { intros c' g'. unfold handleSignup. by destruct (bindUser (Payload_ c')). }
  assert (Hrooms : ∀ c g, clients (getRoomsHandler c g).2 = clients g).
  { intros c' g'. unfold getRoomsHandler. by destruct (decide _). }
  assert (Hcreate : ∀ c g, clients (createRoomHandler c g).2 = clients g).
  { intros c' g'. unfold createRoomHandler. by destruct (bindRoom (Payload_ c')). }
  assert (Hjoin : ∀ c g, clients (joinRoomHandler c g).2 = clients g).
  { intros c' g'. by rewrite joinRoomHandler_globals. }
  destruct r; cbn [route]; auto using authMiddleware_clients.
Qed.

Lemma after_clients P J (reqs : list (Route * Context)) (g : Globals) :
  clients (after P J reqs g) = clients g.
Proof.
  revert g. induction reqs as [|[r c] reqs IH]; intros g; [done|].
  unfold after in *. cbn [foldl]. rewrite IH. apply route_clients.
Qed.

(** C2, as stated, fails: on the freshly started server nobody is online
    in room "1", and the listing for room "1" reports the clients "1" and
    "2"; it reports the same two for room "2". *)
Lemma getClients_not_presence :
  online [] "1" = [] ∧
  listed (getClientsHandler (getClients "1") init).1 = ["1"; "2"] ∧
  listed (getClientsHandler (getClients "2") init).1 = ["1"; "2"] ∧
  ¬ lists_members_of [] init "1".
Proof.
  repeat split; try reflexivity.
  unfold lists_members_of. cbn. intros Heq.
  assert (Hin : "1" ∈@{gset string} ∅) by (rewrite <- Heq; set_solver).
  set_solver.
Qed.

(** C2, amended. For every roomID, and after every history of requests,
    [getClientsHandler] answers 200 with the package-level [clients] list,
    which no route writes: the listing is the fixed pair of clients "1"
    and "2", the same for every room and whoever is connected. *)
Theorem getClientsHandler_fixed_list P J (reqs : list (Route * Context)) (c : Context) :
  getClientsHandler c (after P J reqs init)
    = (reply c (JSON http.StatusOK
                  (OfClients [Client.mk "1" "User1"; Client.mk "2" "User2"])),
       after P J reqs init) ∧
  listed (getClientsHandler c (after P J reqs init)).1 = ["1"; "2"] ∧
  ∀ c' : Context,
    listed (getClientsHandler c' (after P J reqs init)).1
      = listed (getClientsHandler c (after P J reqs init)).1.
Proof.
  unfold getClientsHandler, listed. cbn. rewrite after_clients. done.
Qed.

(** ** The auth middleware *)

(** An absent header reads as the empty string. *)
Lemma GetHeader_absent (c : Context) (k : string) :
  Header c !! k = None → GetHeader c k = "".
Proof. intros Hk. unfold GetHeader. by rewrite Hk. Qed.

(** C9. On a protected route: when the Authorization header is absent or
    empty, has at most 7 bytes, does not begin with the 7 bytes "Bearer ",
    or the token behind them is refused by the verifier (an error, or a
    token that is not valid), the middleware answers 401, aborts, and
    returns without entering the rest of the chain: the outcome is one
    fixed reply whatever [next] is, the variables and the context keys
    untouched.  In every other case the rest of the chain runs on the
    context in which "username" is the verified claim. *)
Theorem authMiddleware_guards P (next : HandlerFunc) (c : Context) (g : Globals) :
  ((Header c !! "Authorization" = None
    ∨ GetHeader c "Authorization" = ""
    ∨ (len_string (GetHeader c "Authorization") ≤ 7)%Z
    ∨ String.substring 0 7 (GetHeader c "Authorization") ≠ "Bearer "
    ∨ err (P (String.substring 7
                (String.length (GetHeader c "Authorization") - 7)%nat
                (GetHeader c "Authorization")) jwtKey) = true
    ∨ Valid (P (String.substring 7
                  (String.length (GetHeader c "Authorization") - 7)%nat
                  (GetHeader c "Authorization")) jwtKey) = false) →
   status (authMiddleware P next c g).1 = Some http.StatusUnauthorized ∧
   Aborted (authMiddleware P next c g).1 = true ∧
   Keys (authMiddleware P next c g).1 = Keys c ∧
   ∃ msg, authMiddleware P next c g = (Abort (reply c (Unauthorized msg)), g)) ∧
  (¬ (Header c !! "Authorization" = None
      ∨ GetHeader c "Authorization" = ""
      ∨ (len_string (GetHeader c "Authorization") ≤ 7)%Z
      ∨ String.substring 0 7 (GetHeader c "Authorization") ≠ "Bearer "
      ∨ err (P (String.substring 7
                  (String.length (GetHeader c "Authorization") - 7)%nat
                  (GetHeader c "Authorization")) jwtKey) = true
      ∨ Valid (P (String.substring 7
                    (String.length (GetHeader c "Authorization") - 7)%nat
                    (GetHeader c "Authorization")) jwtKey) = false) →
   ∃ username,
     username = Username (P (String.substring 7
                               (String.length (GetHeader c "Authorization") - 7)%nat
                               (GetHeader c "Authorization")) jwtKey) ∧
     Get (Set_ c "username" username) "username" = Some username ∧
     authMiddleware P next c g = next (Set_ c "username" username) g).
Proof.
  unfold authMiddleware.
  set (h := GetHeader c "Authorization").
  set (t := P (String.substring 7 (String.length h - 7)%nat h) jwtKey).
  split.
  - intros Hbad.
    assert (Hcases :
      (bool_decide (h = "") || bool_decide (len_string h ≤ 7)%Z
       || negb (bool_decide (String.substring 0 7 h = "Bearer "))) = true
      ∨ (err t || negb (Valid t)) = true).
    { destruct Hbad as [Habs | [He | [Hlen | [Hpre | [Herr | Hval]]]]].
      - left. apply (GetHeader_absent c) in Habs. fold h in Habs.
        by rewrite (bool_decide_eq_true_2 _ Habs).
      - left. by rewrite (bool_decide_eq_true_2 _ He).
      - left. rewrite (bool_decide_eq_true_2 _ Hlen). by rewrite orb_true_r.
      - left. rewrite (bool_decide_eq_false_2 _ Hpre). by rewrite orb_true_r.
      - right. by rewrite Herr.
      - right. rewrite Hval. by rewrite orb_true_r. }
    destruct (bool_decide (h = "") || bool_decide (len_string h ≤ 7)%Z
              || negb (bool_decide (String.substring 0 7 h = "Bearer "))).
    + cbn. repeat split; eauto.
    + destruct Hcases as [? | Ht]; [done|]. rewrite Ht.
      cbn. repeat split; eauto.
  - intros Hgood.
    assert (Hh : Header c !! "Authorization" ≠ None) by tauto.
    assert (He : h ≠ "") by tauto.
    assert (Hlen : ¬ (len_string h ≤ 7)%Z) by tauto.
    assert (Hpre : String.substring 0 7 h = "Bearer ").
    { destruct (decide (String.substring 0 7 h = "Bearer ")); tauto. }
    assert (Herr : err t = false) by (destruct (err t); tauto).
    assert (Hval : Valid t = true) by (destruct (Valid t); tauto).
    rewrite (bool_decide_eq_false_2 _ He), (bool_decide_eq_false_2 _ Hlen),
      (bool_decide_eq_true_2 _ Hpre), Herr, Hval.
    cbn. exists (Username t). repeat split.
    unfold Get, Set_. cbn. apply lookup_insert_eq.
Qed.

(** Both sides of C9 at concrete requests, with a verifier that accepts the
    token "good": the header "Bearer " (7 bytes, no token) is refused, the
    header "Bearer good" reaches the handler as alice. *)
Lemma authMiddleware_guards_witness :
  (status (authMiddleware accept_good getRoomsHandler (authorized "Bearer ") init).1
     = Some http.StatusUnauthorized ∧
   Aborted (authMiddleware accept_good getRoomsHandler (authorized "Bearer ") init).1
     = true ∧
   Keys (authMiddleware accept_good getRoomsHandler (authorized "Bearer ") init).1
     = Keys (authorized "Bearer ") ∧
   ∃ msg, authMiddleware accept_good getRoomsHandler (authorized "Bearer ") init
          = (Abort (reply (authorized "Bearer ") (Unauthorized msg)), init)) ∧
  (∃ username,
     username = Username (accept_good
                            (String.substring 7
                               (String.length (GetHeader (authorized "Bearer good")
                                                 "Authorization") - 7)%nat
                               (GetHeader (authorized "Bearer good") "Authorization"))
                            jwtKey) ∧
     Get (Set_ (authorized "Bearer good") "username" username) "username"
       = Some username ∧
     authMiddleware accept_good getRoomsHandler (authorized "Bearer good") init
       = getRoomsHandler (Set_ (authorized "Bearer good") "username" username) init).
Proof.
  split.
  - apply (proj1 (authMiddleware_guards accept_good getRoomsHandler
                    (authorized "Bearer ") init)).
    right. right. left. vm_compute. discriminate.
  - apply (proj2 (authMiddleware_guards accept_good getRoomsHandler
                    (authorized "Bearer good") init)).
    vm_compute. intros [Hn | [He | [Hlen | [Hpre | [Herr | Hval]]]]];
      try discriminate; try (by apply Hlen); by apply Hpre.
Defined.

(** ** Websocket sessions *)

Lemma pump_outbox (username roomID : string) (frames : list (option string)) (conn : Conn) :
  outbox (pump username roomID frames conn).1
    = outbox conn ++
      (Sprintf_echo username
         <$> take (accepted (wbudget conn) (length (sent frames))) (sent frames)).
Proof.
  revert conn. induction frames as [|[msg|] rest IH]; intros conn; cbn [pump sent].
  - by rewrite take_nil, app_nil_r.
  - unfold WriteMessage. cbn [set_incoming wbudget outbox].
    destruct (wbudget conn) as [[|k]|] eqn:Hb.
    + cbn. by rewrite app_nil_r.
    + match goal with |- context [pump _ _ rest ?c'] =>
        specialize (IH c'); destruct (pump username roomID rest c') as [conn' lg]
      end.
      cbn in *. rewrite IH. by rewrite <- app_assoc.
    + match goal with |- context [pump _ _ rest ?c'] =>
        specialize (IH c'); destruct (pump username roomID rest c') as [conn' lg]
      end.
      cbn in *. rewrite IH. by rewrite <- app_assoc.
  - by rewrite take_nil, app_nil_r.
Qed.

(** An authenticated request whose upgrade succeeds is served as a session
    that ends closed and has written [echoes]. *)
Lemma joinRoomHandler_session (c : Context) (g : Globals) (u : string) (conn : Conn) :
  Get c "username" = Some u →
  Socket c = Some conn →
  ∃ ws lg,
    joinRoomHandler c g = (reply c (Upgraded ws lg), g) ∧
    outbox ws = echoes u conn ∧ closed ws = true.
Proof.
  intros Hu Hs. unfold joinRoomHandler. rewrite Hu, Hs.
  pose proof (pump_outbox u (Param c "roomID") (incoming conn) conn) as Hout.
  destruct (pump u (Param c "roomID") (incoming conn) conn) as [ws lg].
  exists (Close ws), lg. by repeat split.
Qed.

Lemma joinRoomHandler_indep (c : Context) (g g' : Globals) :
  (joinRoomHandler c g).1 = (joinRoomHandler c g').1.
Proof.
  unfold joinRoomHandler.
  destruct (Get c "username") as [username|]; [|done].
  destruct (Socket c) as [conn|]; [|done].
  by destruct (pump username (Param c "roomID") (incoming conn) conn).
Qed.

(** Sessions do not meet: serving a list of join requests is serving each
    one alone. *)
Lemma serve_joinRoomHandler (cs : list Context) (g : Globals) :
  serve joinRoomHandler cs g = ((λ c, (joinRoomHandler c g).1) <$> cs, g).
Proof.
  induction cs as [|c cs IH]; [done|]. cbn [serve].
  rewrite (surjective_pairing (joinRoomHandler c g)), joinRoomHandler_globals.
  by rewrite IH.
Qed.

Lemma serve_joinRoomHandler_inbound (cs : list Context) (g : Globals) (i : nat)
    (c : Context) (u : string) (conn : Conn) :
  cs !! i = Some c →
  Get c "username" = Some u →
  Socket c = Some conn →
  inbound <$> (serve joinRoomHandler cs g).1 !! i = Some (echoes u conn).
Proof.
  intros Hi Hu Hs. rewrite serve_joinRoomHandler. cbn [fst].
  rewrite list_lookup_fmap, Hi. cbn.
  destruct (joinRoomHandler_session c g u conn Hu Hs) as (ws & lg & -> & Hout & _).
  unfold inbound. cbn. by rewrite Hout.
Qed.

(** C1, as stated, fails: with A and B in room "r1" and A sending "hi", it
    is A that receives the one frame and B that receives none. *)
Lemma broadcast_reaches_sender_only :
  inbound <$> (serve joinRoomHandler room_r1 init).1 = [["A: hi"]; []] ∧
  ¬ (∃ a b : Context,
       (serve joinRoomHandler room_r1 init).1 = [a; b] ∧
       inbound b = [Sprintf_echo "A" "hi"] ∧ inbound a = []).
Proof.
  assert (Hrun : inbound <$> (serve joinRoomHandler room_r1 init).1 = [["A: hi"]; []])
    by (vm_compute; reflexivity).
  split; [exact Hrun|].
  intros (a & b & Hab & _ & Ha). rewrite Hab in Hrun. cbn in Hrun.
  rewrite Ha in Hrun. discriminate.
Qed.

(** C1, amended. [joinRoomHandler] has no fan-out: whatever sessions are
    served together, the frames a connection receives are the echo of its
    own messages, each as "<its username>: <text>", in the order sent, as
    many as its transport accepted; no frame sent on another connection
    reaches it. *)
Theorem joinRoomHandler_echoes_to_sender (cs : list Context) (g : Globals) (i : nat)
    (c : Context) (u : string) (conn : Conn) :
  cs !! i = Some c →
  Get c "username" = Some u →
  Socket c = Some conn →
  inbound <$> (serve joinRoomHandler cs g).1 !! i
    = Some (outbox conn ++
            (Sprintf_echo u
               <$> take (accepted (wbudget conn) (length (sent (incoming conn))))
                        (sent (incoming conn)))).
Proof. apply serve_joinRoomHandler_inbound. Qed.

Lemma joinRoomHandler_echoes_to_sender_witness :
  inbound <$> (serve joinRoomHandler room_r1 init).1 !! 1%nat
    = Some (outbox (mkConn [] [] None false) ++
            (Sprintf_echo "B"
               <$> take (accepted (wbudget (mkConn [] [] None false))
                           (length (sent (incoming (mkConn [] [] None false)))))
                        (sent (incoming (mkConn [] [] None false))))).
Proof.
  apply (joinRoomHandler_echoes_to_sender room_r1 init 1 (join "B" "r1" []) "B"
           (mkConn [] [] None false)); reflexivity.
Defined.

(** C3, as stated, fails: "unknown-42" is not in the registry, and the join
    is not rejected; the connection is upgraded and served. *)
Lemma join_unknown_room_is_served :
  ¬ resolves init "unknown-42" ∧
  ¬ rejected (joinRoomHandler unknown_42 init).1 ∧
  status (joinRoomHandler unknown_42 init).1 = Some 101%Z ∧
  inbound (joinRoomHandler unknown_42 init).1 = ["A: hi"].
Proof.
  repeat split.
  - unfold resolves. cbn. intros Hin.
    apply list_elem_of_In in Hin. cbn in Hin. intuition discriminate.
  - vm_compute. tauto.
Qed.

Lemma rejected_reply (c : Context) (r : Reply) :
  rejected (reply c r) ↔
  match r with
  | JSON code _ => (400 ≤ code)%Z
  | UpgradeFailed _ => True
  | Upgraded _ _ => False
  end.
Proof. unfold rejected. cbn. by destruct r. Qed.

(** C3, amended. [joinRoomHandler] never resolves [roomID]: a join, to a
    known room or not, is rejected only when the context has no username
    (401) or the upgrade fails; it never answers 404; an authenticated
    request whose upgrade succeeds is upgraded and served whatever its
    roomID; and no join writes [users], [rooms] or [clients]. *)
Theorem joinRoomHandler_ignores_registry (c : Context) (g : Globals) :
  (joinRoomHandler c g).2 = g ∧
  status (joinRoomHandler c g).1 ≠ Some http.StatusNotFound ∧
  (rejected (joinRoomHandler c g).1 ↔ Get c "username" = None ∨ Socket c = None) ∧
  (Get c "username" = None →
     status (joinRoomHandler c g).1 = Some http.StatusUnauthorized) ∧
  (∀ u conn, Get c "username" = Some u → Socket c = Some conn →
     status (joinRoomHandler c g).1 = Some 101%Z ∧
     inbound (joinRoomHandler c g).1 = echoes u conn).
Proof.
  split; [apply joinRoomHandler_globals|].
  destruct (Get c "username") as [u|] eqn:Hu.
  - destruct (Socket c) as [conn|] eqn:Hs.
    + destruct (joinRoomHandler_session c g u conn Hu Hs) as (ws & lg & -> & Hout & _).
      cbn [fst]. rewrite rejected_reply. unfold status, inbound. cbn.
      split_and!; try done.
      * split; [done|]. intros [? | ?]; discriminate.
      * intros u' conn' [= <-] [= <-]. done.
    + unfold joinRoomHandler. rewrite Hu, Hs. cbn [fst].
      rewrite rejected_reply. unfold status. cbn.
      split_and!; try done. split; auto.
  - unfold joinRoomHandler. rewrite Hu. cbn [fst].
    rewrite rejected_reply. unfold status, Unauthorized. cbn.
    split_and!; try done. split; [auto | done].
Qed.









(** ** The presence store *)

Lemma Get_SetOnline (s : staterepo.stateStore) (uid : Z) (room : string) (now : Z) :
  staterepo.Get (staterepo.SetOnline s uid room now) uid
    = staterepo.mkState uid (Some room) now.
Proof. unfold staterepo.Get, staterepo.SetOnline. cbn. by rewrite lookup_insert_eq. Qed.

Lemma Get_SetOffline (s : staterepo.stateStore) (uid : Z) (now : Z) :
  staterepo.roomID (staterepo.Get (staterepo.SetOffline s uid now) uid) = None.
Proof.
  unfold staterepo.Get, staterepo.SetOffline. cbn. rewrite lookup_alter_eq.
  by destruct (staterepo.states s !! uid).
Qed.

(** Records are overwritten, never deleted. *)
Lemma apply_keeps_record (s : staterepo.stateStore) (o : staterepo.Op) (uid : Z) :
  is_Some (staterepo.states s !! uid) →
  is_Some (staterepo.states (staterepo.apply s o) !! uid).
Proof.
  intros [r Hr]. destruct o as [uid' room now | uid' now]; cbn.
  - destruct (decide (uid' = uid)) as [->|Hne].
    + rewrite lookup_insert_eq. eauto.
    + rewrite lookup_insert_ne by done. eauto.
  - destruct (decide (uid' = uid)) as [->|Hne].
    + rewrite lookup_alter_eq, Hr. cbn. eauto.
    + rewrite lookup_alter_ne by done. eauto.
Qed.

(** C5. [Get] is a total function from a store and a userID to a record,
    with no error result: in every store it returns the record kept for the
    user when there is one and the never-seen default when there is none; on
    the store [NewStateDB] constructs, and on a user no write has named, that
    is the default; and a record once present is still returned after any
    further write. *)
Theorem presence_Get_total (s : staterepo.stateStore) (uid : Z) :
  (∀ r, staterepo.states s !! uid = Some r → staterepo.Get s uid = r) ∧
  (staterepo.states s !! uid = None → staterepo.Get s uid = staterepo.neverSeen uid) ∧
  (∃ r, staterepo.Get s uid = r ∧
        (staterepo.states s !! uid = Some r ∨ r = staterepo.neverSeen uid)) ∧
  staterepo.Get staterepo.NewStateDB uid = staterepo.neverSeen uid ∧
  (∀ o, is_Some (staterepo.states s !! uid) →
        staterepo.states (staterepo.apply s o) !! uid
          = Some (staterepo.Get (staterepo.apply s o) uid)).
Proof.
  unfold staterepo.Get. split_and!.
  - by intros r ->.
  - by intros ->.
  - destruct (staterepo.states s !! uid) as [r|]; eauto.
  - reflexivity.
  - intros o Hsome. destruct (apply_keeps_record s o uid Hsome) as [r ->]. done.
Qed.

(** ** The outbound queue *)

Section Queue.

Import Connection.

Context {M : Type}.
Implicit Types (c : Connection.t M) (m : M) (ms : list M).

Lemma capacity_pos : (0 < capacity)%nat.
Proof. unfold capacity. lia. Qed.

Lemma Send_open c m :
  closed c = false → closed (Send c m).1 = false ∧ (Send c m).2 = None.
Proof.
  intros Ho. unfold Send. rewrite Ho. by destruct (decide _).
Qed.

Lemma Send_room c m :
  closed c = false → (length (queue c) < capacity)%nat →
  queue (Send c m).1 = queue c ++ [m] ∧
  warned (Send c m).1 = warned c ∧ warnings (Send c m).1 = warnings c.
Proof.
  intros Ho Hlt. unfold Send. rewrite Ho. by rewrite decide_True.
Qed.

Lemma Send_full c m :
  closed c = false → (capacity ≤ length (queue c))%nat →
  queue (Send c m).1 = tail (queue c) ++ [m] ∧
  warned (Send c m).1 = true ∧
  warnings (Send c m).1 = (if warned c then warnings c else S (warnings c)).
Proof.
  intros Ho Hge. unfold Send. rewrite Ho. by rewrite decide_False by lia.
Qed.

Lemma length_tail_snoc (q : list M) m :
  (0 < length q)%nat → length (tail q ++ [m]) = length q.
Proof. destruct q; cbn; [lia|]. rewrite length_app. cbn. lia. Qed.

(** With no drain the queue is the newest [capacity] messages. *)
Lemma SendAll_queue ms c :
  closed c = false → (length (queue c) ≤ capacity)%nat →
  queue (SendAll c ms)
    = drop (length (queue c) + length ms - capacity) (queue c ++ ms).
Proof.
  revert c. induction ms as [|m ms IH]; intros c Ho Hle.
  - cbn. rewrite app_nil_r.
    replace (length (queue c) + 0 - capacity)%nat with 0%nat by lia. done.
  - change (SendAll c (m :: ms)) with (SendAll (Send c m).1 ms).
    destruct (Send_open c m Ho) as [Ho' _].
    destruct (decide (length (queue c) < capacity)%nat) as [Hlt | Hge].
    + destruct (Send_room c m Ho Hlt) as (Hq & _ & _).
      rewrite IH by (rewrite ?Hq, ?length_app; cbn; first [done | lia]).
      rewrite Hq, length_app, <- app_assoc. cbn.
      f_equal. lia.
    + destruct (Send_full c m Ho) as (Hq & _ & _); [lia|].
      pose proof capacity_pos.
      rewrite IH by (rewrite ?Hq, ?length_tail_snoc; first [done | lia]).
      rewrite Hq, length_tail_snoc, <- app_assoc by lia.
      destruct (queue c) as [|x q]; cbn [length tail app] in *; [lia|].
      replace (S (length q) + S (length ms) - capacity)%nat
        with (S (S (length q) + length ms - capacity)) by lia.
      done.
Qed.

(** In one window a connection records a warning at the first drop and at
    no later one. *)
Lemma SendAll_warnings ms c :
  closed c = false → (length (queue c) ≤ capacity)%nat →
  warnings (SendAll c ms)
    = if warned c then warnings c
      else if decide (capacity < length (queue c) + length ms)%nat
           then S (warnings c) else warnings c.
Proof.
  revert c. induction ms as [|m ms IH]; intros c Ho Hle.
  - cbn. destruct (warned c); [done|]. by rewrite decide_False by lia.
  - change (SendAll c (m :: ms)) with (SendAll (Send c m).1 ms).
    destruct (Send_open c m Ho) as [Ho' _].
    pose proof capacity_pos.
    destruct (decide (length (queue c) < capacity)%nat) as [Hlt | Hge].
    + destruct (Send_room c m Ho Hlt) as (Hq & Hw & Hn).
      rewrite IH by (rewrite ?Hq, ?length_app; cbn; first [done | lia]).
      rewrite Hq, Hw, Hn, length_app. cbn.
      destruct (warned c); [done|].
      repeat case_decide; first [done | lia].
    + destruct (Send_full c m Ho) as (Hq & Hw & Hn); [lia|].
      rewrite IH by (rewrite ?Hq, ?length_tail_snoc; first [done | lia]).
      rewrite Hw, Hn. destruct (warned c); [done|].
      cbn [length]. by rewrite decide_True by lia.
Qed.

End Queue.

(** C7. On an open connection whose queue holds [capacity] = 64 messages,
    [Send] succeeds, discards the oldest message and enqueues the new one at
    the tail, the queue staying full; it records a warning if the window has
    none yet, and whatever is sent afterwards in the same window records no
    further one.  So 65 messages sent to a new connection with no drain
    leave the last 64 queued, messages #2..#65 of #1..#65, with one warning. *)
Theorem Send_drops_oldest {M : Type} (c : Connection.t M) (m : M) :
  Connection.closed c = false →
  length (Connection.queue c) = Connection.capacity →
  Connection.capacity = 64%nat ∧
  (Connection.Send c m).2 = None ∧
  Connection.queue (Connection.Send c m).1 = tail (Connection.queue c) ++ [m] ∧
  length (Connection.queue (Connection.Send c m).1) = Connection.capacity ∧
  Connection.warnings (Connection.Send c m).1
    = (if Connection.warned c then Connection.warnings c
       else S (Connection.warnings c)) ∧
  (∀ ms : list M,
     Connection.warnings (Connection.SendAll (Connection.Send c m).1 ms)
       = Connection.warnings (Connection.Send c m).1) ∧
  (∀ ms : list M, length ms = 65%nat →
     Connection.queue (Connection.SendAll Connection.new ms) = drop 1 ms ∧
     Connection.warnings (Connection.SendAll Connection.new ms) = 1%nat) ∧
  Connection.queue (Connection.SendAll Connection.new (seq 1 65)) = seq 2 64 ∧
  Connection.warnings (Connection.SendAll Connection.new (seq 1 65)) = 1%nat.
Proof.
  intros Ho Hfull. pose proof (@capacity_pos) as Hpos.
  destruct (Send_open c m Ho) as [Ho' Hok].
  destruct (Send_full c m Ho) as (Hq & Hw & Hn); [lia|].
  assert (Hlen : length (Connection.queue (Connection.Send c m).1) = Connection.capacity)
    by (rewrite Hq, length_tail_snoc; lia).
  split_and!; try done.
  - intros ms. rewrite SendAll_warnings by (first [done | lia]). by rewrite Hw.
  - intros ms Hms. split.
    + rewrite SendAll_queue by (cbn; first [done | lia]). cbn. by rewrite Hms.
    + rewrite SendAll_warnings by (cbn; first [done | lia]). cbn. by rewrite Hms.
Qed.

Lemma Send_drops_oldest_witness :
  Connection.capacity = 64%nat ∧
  (Connection.Send (Connection.SendAll Connection.new (seq 1 64)) 65%nat).2 = None ∧
  Connection.queue (Connection.Send (Connection.SendAll Connection.new (seq 1 64)) 65%nat).1
    = tail (Connection.queue (Connection.SendAll Connection.new (seq 1 64))) ++ [65%nat] ∧
  length (Connection.queue
            (Connection.Send (Connection.SendAll Connection.new (seq 1 64)) 65%nat).1)
    = Connection.capacity ∧
  Connection.warnings (Connection.Send (Connection.SendAll Connection.new (seq 1 64)) 65%nat).1
    = (if Connection.warned (Connection.SendAll Connection.new (seq 1 64))
       then Connection.warnings (Connection.SendAll Connection.new (seq 1 64))
       else S (Connection.warnings (Connection.SendAll Connection.new (seq 1 64)))) ∧
  (∀ ms : list nat,
     Connection.warnings
       (Connection.SendAll
          (Connection.Send (Connection.SendAll Connection.new (seq 1 64)) 65%nat).1 ms)
       = Connection.warnings
           (Connection.Send (Connection.SendAll Connection.new (seq 1 64)) 65%nat).1) ∧
  (∀ ms : list nat, length ms = 65%nat →
     Connection.queue (Connection.SendAll Connection.new ms) = drop 1 ms ∧
     Connection.warnings (Connection.SendAll Connection.new ms) = 1%nat) ∧
  Connection.queue (Connection.SendAll Connection.new (seq 1 65)) = seq 2 64 ∧
  Connection.warnings (Connection.SendAll Connection.new (seq 1 65)) = 1%nat.
Proof.
  apply (Send_drops_oldest (Connection.SendAll Connection.new (seq 1 64)) 65%nat);
    vm_compute; reflexivity.
Defined.

(** * Further properties of the handlers *)

(** ** The middleware, case by case *)

Lemma authMiddleware_cases P (next : HandlerFunc) (c : Context) (g : Globals) :
  (¬ verified P c ∧
   ∃ msg, authMiddleware P next c g = (Abort (reply c (Unauthorized msg)), g))
  ∨ (verified P c ∧
     authMiddleware P next c g
       = next (Set_ c "username" (Username (P (bearer c) jwtKey))) g).
Proof.
  unfold authMiddleware, verified, bearer.
  set (h := GetHeader c "Authorization").
  set (t := P (String.substring 7 (String.length h - 7)%nat h) jwtKey).
  destruct (bool_decide (h = "")) eqn:He; cbn [orb].
  { left. apply bool_decide_eq_true_1 in He. split; [|eauto].
    intros (Hlen & _). rewrite He in Hlen. vm_compute in Hlen. discriminate. }
  destruct (bool_decide (len_string h ≤ 7)%Z) eqn:Hlen; cbn [orb].
  { left. apply bool_decide_eq_true_1 in Hlen. split; [|eauto].
    intros (Hlt & _). lia. }
  destruct (bool_decide (String.substring 0 7 h = "Bearer ")) eqn:Hpre; cbn [negb].
  2:{ left. apply bool_decide_eq_false_1 in Hpre. split; [|eauto].
      intros (_ & Hp & _). done. }
  apply bool_decide_eq_false_1 in Hlen. apply bool_decide_eq_true_1 in Hpre.
  destruct (err t) eqn:Herr; cbn [orb].
  { left. split; [|eauto]. intros (_ & _ & Hf & _). congruence. }
  destruct (Valid t) eqn:Hval; cbn [negb].
  - right. repeat split; first [done | lia].
  - left. split; [|eauto]. intros (_ & _ & _ & Hv). congruence.
Qed.

Lemma handleSignin_globals J (c : Context) (g : Globals) :
  (handleSignin J c g).2 = g.
Proof.
  unfold handleSignin.
  repeat match goal with |- context [match ?x with _ => _ end] => destruct x end;
    reflexivity.
Qed.

(** What one request does to the variables: nothing, or a signup appends a
    user, or a verified createRoom appends a room. *)
Lemma route_effect P J (r : Route) (c : Context) (g : Globals) :
  (route P J r c g).2 = g
  ∨ (r = POST_signup ∧
     ∃ u, bindUser (Payload_ c) = Some u ∧
          (route P J r c g).2
            = set_users g (users g ++ [User.with_ID u (wrap64 (len (users g) + 1))]))
  ∨ (r = POST_createRoom ∧ verified P c ∧
     ∃ room, bindRoom (Payload_ c) = Some room ∧
             (route P J r c g).2 = set_rooms g (rooms g ++ [room])).
Proof.
  destruct r; cbn [route].
  - left. apply handleSignin_globals.
  - unfold handleSignup. destruct (bindUser (Payload_ c)) as [u|] eqn:Hb.
    + right. left. split; [done|]. by exists u.
    + by left.
  - left. destruct (authMiddleware_cases P getRoomsHandler c g)
      as [(_ & msg & ->) | (_ & ->)]; [done|].
    unfold getRoomsHandler. by destruct (decide _).
  - destruct (authMiddleware_cases P createRoomHandler c g)
      as [(_ & msg & ->) | (Hv & ->)]; [by left|].
    unfold createRoomHandler. cbn [Payload_ Set_].
    destruct (bindRoom (Payload_ c)) as [room|] eqn:Hb.
    + right. right. split; [done|]. split; [done|]. by exists room.
    + by left.
  - left. destruct (authMiddleware_cases P joinRoomHandler c g)
      as [(_ & msg & ->) | (_ & ->)]; [done|].
    apply joinRoomHandler_globals.
  - left. destruct (authMiddleware_cases P getClientsHandler c g)
      as [(_ & msg & ->) | (_ & ->)]; done.
Qed.

Lemma after_cons P J (r : Route) (c : Context) (reqs : list (Route * Context))
    (g : Globals) :
  after P J ((r, c) :: reqs) g = after P J reqs (route P J r c g).2.
Proof. reflexivity. Qed.

Lemma route_prefix P J (r : Route) (c : Context) (g : Globals) :
  users g `prefix_of` users (route P J r c g).2 ∧
  rooms g `prefix_of` rooms (route P J r c g).2.
Proof.
  destruct (route_effect P J r c g)
    as [-> | [(_ & u & _ & ->) | (_ & _ & room & _ & ->)]]; cbn.
  - done.
  - split; [apply prefix_app_r|]; done.
  - split; [|apply prefix_app_r]; done.
Qed.

Lemma after_prefix P J (reqs : list (Route * Context)) (g : Globals) :
  users g `prefix_of` users (after P J reqs g) ∧
  rooms g `prefix_of` rooms (after P J reqs g).
Proof.
  revert g. induction reqs as [|[r c] reqs IH]; intros g; [done|].
  rewrite after_cons. destruct (route_prefix P J r c g) as [Hu Hr].
  destruct (IH (route P J r c g).2) as [Hu' Hr'].
  split; etrans; eauto.
Qed.

(** X3. One request, served on its own on the variables [g], never removes
    or rewrites a stored entry and adds at most one: the users and the rooms
    of [g] are still there, in place, at the front of [users] and [rooms],
    followed by nothing, or by one new user and no new room (a signup), or
    by one new room and no new user (a createRoom). *)
Theorem request_only_appends P J (r : Route) (c : Context) (g : Globals) :
  (∀ i u, users g !! i = Some u → users (route P J r c g).2 !! i = Some u) ∧
  (∀ i x, rooms g !! i = Some x → rooms (route P J r c g).2 !! i = Some x) ∧
  ((route P J r c g).2 = g
   ∨ (r = POST_signup ∧ rooms (route P J r c g).2 = rooms g ∧
      ∃ u, users (route P J r c g).2 = users g ++ [u])
   ∨ (r = POST_createRoom ∧ users (route P J r c g).2 = users g ∧
      ∃ x, rooms (route P J r c g).2 = rooms g ++ [x])).
Proof.
  destruct (route_prefix P J r c g) as [[us Hu] [rs Hr]].
  split_and!.
  - intros i u Hi. rewrite Hu. by apply lookup_app_l_Some.
  - intros i x Hi. rewrite Hr. by apply lookup_app_l_Some.
  - destruct (route_effect P J r c g)
      as [Hsame | [(Hs & u & _ & Hg) | (Hc & _ & room & _ & Hg)]].
    + by left.
    + right. left. rewrite Hg. cbn. split_and!; [done..|]. eauto.
    + right. right. rewrite Hg. cbn. split_and!; [done..|]. eauto.
Qed.

(** ** Rooms over time *)

Lemma getRoomsHandler_nonempty (c : Context) (g : Globals) (r : Room.t) (rs : list Room.t) :
  rooms g = r :: rs →
  getRoomsHandler c g = (reply c (JSON http.StatusOK (OfRooms (r :: rs))), g).
Proof.
  intros Hr. unfold getRoomsHandler. rewrite Hr.
  by rewrite decide_False by (unfold len; cbn; lia).
Qed.

(** X5. On the server started from its initial variables the room list is
    never empty: after any requests [getRoomsHandler] answers the array that
    begins with the two initial rooms, followed by the rooms created since;
    its "no room" message is never sent. *)
Theorem getRooms_lists_initial_rooms P J (reqs : list (Route * Context)) (c : Context) :
  ∃ created : list Room.t,
    rooms (after P J reqs init) = rooms init ++ created ∧
    Written (getRoomsHandler c (after P J reqs init)).1
      = Some (JSON http.StatusOK
                (OfRooms (Room.mk "1" "room1" :: Room.mk "2" "room2" :: created))).
Proof.
  destruct (after_prefix P J reqs init) as [_ [created Hr]].
  exists created. split; [done|].
  by rewrite (getRoomsHandler_nonempty c _ (Room.mk "1" "room1")
                (Room.mk "2" "room2" :: created)).
Qed.

(** X6. Create, then list: [getRoomsHandler] served on the variables that a
    well-formed [createRoomHandler] request left answers 200 with the array
    of the rooms that were there before, in their order, followed by the
    room as it was submitted. *)
Theorem created_room_is_listed (c c' : Context) (g : Globals) (room : Room.t) :
  bindRoom (Payload_ c) = Some room →
  getRoomsHandler c' (createRoomHandler c g).2
    = (reply c' (JSON http.StatusOK (OfRooms (rooms g ++ [room]))),
       (createRoomHandler c g).2) ∧
  rooms (createRoomHandler c g).2 = rooms g ++ [room].
Proof.
  intros Hb.
  assert (Hg : rooms (createRoomHandler c g).2 = rooms g ++ [room])
    by (unfold createRoomHandler; by rewrite Hb).
  split; [|done].
  destruct (rooms g ++ [room]) as [|x xs] eqn:Hrs.
  - destruct (rooms g); discriminate Hrs.
  - by rewrite (getRoomsHandler_nonempty c' _ x xs Hg).
Qed.

Lemma created_room_is_listed_witness :
  getRoomsHandler blank (createRoomHandler (createRoom "7" "lobby") init).2
    = (reply blank (JSON http.StatusOK (OfRooms (rooms init ++ [Room.mk "7" "lobby"]))),
       (createRoomHandler (createRoom "7" "lobby") init).2) ∧
  rooms (createRoomHandler (createRoom "7" "lobby") init).2
    = rooms init ++ [Room.mk "7" "lobby"].
Proof.
  apply (created_room_is_listed (createRoom "7" "lobby") blank init (Room.mk "7" "lobby")).
  reflexivity.
Defined.

(** ** Signin *)

Lemma handleSignin_found J (c : Context) (g : Globals) (u r : User.t) :
  bindUser (Payload_ c) = Some u →
  r ∈ users g →
  matches u r →
  handleSignin J c g = (reply c (token_reply J (User.Login u)), g).
Proof.
  intros Hb Hin Hm. unfold handleSignin, token_reply. rewrite Hb.
  match goal with |- context [list_find ?Q ?l] =>
    destruct (list_find_elem_of Q l r Hin Hm) as [[i x] ->]
  end.
  by destruct (J (User.Login u)).
Qed.

Lemma handleSignin_not_found J (c : Context) (g : Globals) (u : User.t) :
  bindUser (Payload_ c) = Some u →
  (∀ r, r ∈ users g → ¬ matches u r) →
  handleSignin J c g = (reply c (Unauthorized "Invalid credentials"), g).
Proof.
  intros Hb Hno. unfold handleSignin. rewrite Hb.
  match goal with |- context [list_find ?Q ?l] =>
    destruct (list_find Q l) as [[i x]|] eqn:Hf
  end; [|done].
  apply list_find_Some in Hf as (Hi & Hm & _).
  destruct (Hno x); [|done]. by eapply list_elem_of_lookup_2.
Qed.

Lemma registered_dec (g : Globals) (u : User.t) :
  (∃ r, r ∈ users g ∧ matches u r) ∨ (∀ r, r ∈ users g → ¬ matches u r).
Proof.
  unfold matches.
  destruct (decide (Exists (λ r, User.Login r = User.Login u
                                 ∧ User.Password r = User.Password u) (users g)))
    as [Hex | Hno].
  - left. by apply Exists_exists in Hex.
  - right. intros r Hin Hm. apply Hno. apply Exists_exists. eauto.
Qed.

(** X2. A well-formed signin never writes a variable, and its status tells
    exactly whether the credentials are registered: 200 when some stored
    user has the submitted login and password and the token could be
    signed, 500 when one has and signing failed, 401 when none has. *)
Theorem signin_status_iff_registered J (c : Context) (g : Globals) (u : User.t) :
  bindUser (Payload_ c) = Some u →
  (handleSignin J c g).2 = g ∧
  (status (handleSignin J c g).1 = Some http.StatusOK
     ↔ (∃ r, r ∈ users g ∧ matches u r) ∧ is_Some (J (User.Login u))) ∧
  (status (handleSignin J c g).1 = Some http.StatusInternalServerError
     ↔ (∃ r, r ∈ users g ∧ matches u r) ∧ J (User.Login u) = None) ∧
  (status (handleSignin J c g).1 = Some http.StatusUnauthorized
     ↔ ¬ ∃ r, r ∈ users g ∧ matches u r).
Proof.
  intros Hb. split; [apply handleSignin_globals|].
  destruct (registered_dec g u) as [(r & Hin & Hm) | Hno].
  - assert (Hex : ∃ r, r ∈ users g ∧ matches u r) by eauto.
    rewrite (handleSignin_found J c g u r Hb Hin Hm). unfold token_reply, status.
    destruct (J (User.Login u)) as [tok|]; cbn.
    + split_and!; split.
      * intros _. split; eauto.
      * done.
      * discriminate.
      * intros [_ ?]. discriminate.
      * discriminate.
      * intros Hn. by destruct Hn.
    + split_and!; split.
      * discriminate.
      * intros [_ [? ?]]. discriminate.
      * done.
      * done.
      * discriminate.
      * intros Hn. by destruct Hn.
  - assert (Hex : ¬ ∃ r, r ∈ users g ∧ matches u r)
      by (intros (r & Hin & Hm); exact (Hno r Hin Hm)).
    rewrite (handleSignin_not_found J c g u Hb Hno). unfold status. cbn.
    split_and!; split.
    + discriminate.
    + intros [? _]. done.
    + discriminate.
    + intros [? _]. done.
    + done.
    + done.
Qed.

Lemma signin_status_iff_registered_witness :
  (handleSignin issue_good (signin "bob" "pw1") init).2 = init ∧
  (status (handleSignin issue_good (signin "bob" "pw1") init).1 = Some http.StatusOK
     ↔ (∃ r, r ∈ users init ∧ matches (User.mk 0 "bob" "pw1" "" "") r)
       ∧ is_Some (issue_good (User.Login (User.mk 0 "bob" "pw1" "" "")))) ∧
  (status (handleSignin issue_good (signin "bob" "pw1") init).1
     = Some http.StatusInternalServerError
     ↔ (∃ r, r ∈ users init ∧ matches (User.mk 0 "bob" "pw1" "" "") r)
       ∧ issue_good (User.Login (User.mk 0 "bob" "pw1" "" "")) = None) ∧
  (status (handleSignin issue_good (signin "bob" "pw1") init).1
     = Some http.StatusUnauthorized
     ↔ ¬ ∃ r, r ∈ users init ∧ matches (User.mk 0 "bob" "pw1" "" "") r).
Proof.
  apply (signin_status_iff_registered issue_good (signin "bob" "pw1") init
           (User.mk 0 "bob" "pw1" "" "")).
  reflexivity.
Defined.

Lemma handleSignup_stores (c : Context) (g : Globals) (u : User.t) :
  bindUser (Payload_ c) = Some u →
  ∃ r, r ∈ users (handleSignup c g).2 ∧
       User.Login r = User.Login u ∧ User.Password r = User.Password u ∧
       users (handleSignup c g).2 = users g ++ [r].
Proof.
  intros Hb. unfold handleSignup. rewrite Hb. cbn.
  exists (User.with_ID u (wrap64 (len (users g) + 1))).
  split_and!; [|reflexivity..]. apply elem_of_app. right. by apply list_elem_of_singleton.
Qed.

(** X1. Signup, then signin: a signin served on the variables that a
    well-formed signup left, with the login and the password of that signup,
    finds the user, whatever users were stored before: it is answered with
    the signer's token for the login (200), or with 500 if signing fails,
    and never with 401; it writes no variable. *)
Theorem signup_then_signin J (c c2 : Context) (g : Globals) (u u2 : User.t) :
  bindUser (Payload_ c) = Some u →
  bindUser (Payload_ c2) = Some u2 →
  User.Login u2 = User.Login u →
  User.Password u2 = User.Password u →
  handleSignin J c2 (handleSignup c g).2
    = (reply c2 (token_reply J (User.Login u)), (handleSignup c g).2) ∧
  status (handleSignin J c2 (handleSignup c g).2).1 ≠ Some http.StatusUnauthorized.
Proof.
  intros Hb Hb2 Hl Hp.
  destruct (handleSignup_stores c g u Hb) as (r & Hin & Hrl & Hrp & _).
  assert (Hm : matches u2 r) by (unfold matches; split; congruence).
  rewrite (handleSignin_found J c2 _ u2 r Hb2 Hin Hm).
  rewrite Hl. split; [done|].
  unfold token_reply, status. cbn. by destruct (J (User.Login u)).
Qed.

Lemma signup_then_signin_witness :
  handleSignin issue_good (signin "bob" "pw1") (handleSignup (signup "bob" "pw1") init).2
    = (reply (signin "bob" "pw1")
         (token_reply issue_good (User.Login (User.mk 0 "bob" "pw1" "" ""))),
       (handleSignup (signup "bob" "pw1") init).2) ∧
  status (handleSignin issue_good (signin "bob" "pw1")
            (handleSignup (signup "bob" "pw1") init).2).1
    ≠ Some http.StatusUnauthorized.
Proof.
  apply (signup_then_signin issue_good (signup "bob" "pw1") (signin "bob" "pw1") init
           (User.mk 0 "bob" "pw1" "" "") (User.mk 0 "bob" "pw1" "" ""));
    reflexivity.
Defined.

(** X12. Signing up under a login that is already stored, with another
    password, takes nothing from the first user and adds a second way in: on
    the variables that signup left, a signin with the old password and a
    signin with the new one are both accepted as that login, each answered
    by the signer of its own instant with the token for the login (or 500 if
    that signing fails), and neither with 401. *)
Theorem second_password_signs_in (J_old J_new : string → option string)
    (c c_old c_new : Context) (g : Globals) (u u_old u_new r0 : User.t) :
  r0 ∈ users g →
  bindUser (Payload_ c) = Some u →
  User.Login u = User.Login r0 →
  bindUser (Payload_ c_old) = Some u_old →
  matches u_old r0 →
  bindUser (Payload_ c_new) = Some u_new →
  User.Login u_new = User.Login u →
  User.Password u_new = User.Password u →
  Written (handleSignin J_old c_old (handleSignup c g).2).1
    = Some (token_reply J_old (User.Login r0)) ∧
  Written (handleSignin J_new c_new (handleSignup c g).2).1
    = Some (token_reply J_new (User.Login r0)) ∧
  status (handleSignin J_old c_old (handleSignup c g).2).1
    ≠ Some http.StatusUnauthorized ∧
  status (handleSignin J_new c_new (handleSignup c g).2).1
    ≠ Some http.StatusUnauthorized.
Proof.
  intros Hin0 Hb Hl Hbo Hmo Hbn Hln Hpn.
  destruct (handleSignup_stores c g u Hb) as (r & Hin & Hrl & Hrp & Hus).
  assert (Hin0' : r0 ∈ users (handleSignup c g).2)
    by (rewrite Hus; apply elem_of_app; by left).
  assert (Hmn : matches u_new r) by (unfold matches; split; congruence).
  rewrite (handleSignin_found J_old c_old _ u_old r0 Hbo Hin0' Hmo).
  rewrite (handleSignin_found J_new c_new _ u_new r Hbn Hin Hmn).
  destruct Hmo as [Hlo _].
  replace (User.Login u_old) with (User.Login r0) by congruence.
  replace (User.Login u_new) with (User.Login r0) by congruence.
  unfold token_reply, status. cbn.
  split_and!; try done.
  - by destruct (J_old (User.Login r0)).
  - by destruct (J_new (User.Login r0)).
Qed.

Lemma second_password_signs_in_witness :
  Written (handleSignin issue_good (signin "bob" "pw1")
             (handleSignup (signup "bob" "pw2")
                (handleSignup (signup "bob" "pw1") init).2).2).1
    = Some (token_reply issue_good (User.Login (User.mk 1 "bob" "pw1" "" ""))) ∧
  Written (handleSignin issue_later (signin "bob" "pw2")
             (handleSignup (signup "bob" "pw2")
                (handleSignup (signup "bob" "pw1") init).2).2).1
    = Some (token_reply issue_later (User.Login (User.mk 1 "bob" "pw1" "" ""))) ∧
  status (handleSignin issue_good (signin "bob" "pw1")
            (handleSignup (signup "bob" "pw2")
               (handleSignup (signup "bob" "pw1") init).2).2).1
    ≠ Some http.StatusUnauthorized ∧
  status (handleSignin issue_later (signin "bob" "pw2")
            (handleSignup (signup "bob" "pw2")
               (handleSignup (signup "bob" "pw1") init).2).2).1
    ≠ Some http.StatusUnauthorized.
Proof.
  apply (second_password_signs_in issue_good issue_later (signup "bob" "pw2")
           (signin "bob" "pw1") (signin "bob" "pw2")
           (handleSignup (signup "bob" "pw1") init).2
           (User.mk 0 "bob" "pw2" "" "") (User.mk 0 "bob" "pw1" "" "")
           (User.mk 0 "bob" "pw2" "" "") (User.mk 1 "bob" "pw1" "" ""));
    first [reflexivity | (apply elem_of_cons; left; reflexivity) | (split; reflexivity)].
Defined.

(** ** The bearer token *)

Lemma substring_0_0 (s : string) : String.substring 0 0 s = "".
Proof. by destruct s. Qed.

Lemma substring_0_length (s : string) : String.substring 0 (String.length s) s = s.
Proof. induction s as [|a s IH]; [done|]. cbn. by rewrite IH. Qed.

(** What the middleware reads off a header made of "Bearer " and a token. *)
Lemma header_facts (c : Context) (tok : string) :
  Header c !! "Authorization" = Some ("Bearer " +:+ tok) →
  GetHeader c "Authorization" = "Bearer " +:+ tok ∧
  len_string (GetHeader c "Authorization") = (7 + len_string tok)%Z ∧
  String.substring 0 7 (GetHeader c "Authorization") = "Bearer " ∧
  bearer c = tok.
Proof.
  intros Hh. unfold bearer, GetHeader. rewrite Hh.
  change (default "" (Some ("Bearer " +:+ tok))) with ("Bearer " +:+ tok).
  split_and!.
  - done.
  - unfold len_string.
    change (String.length ("Bearer " +:+ tok)) with (7 + String.length tok)%nat.
    lia.
  - simpl. by rewrite substring_0_0.
  - simpl. change ("" +:+ tok) with tok.
    rewrite Nat.sub_0_r. apply substring_0_length.
Qed.

Lemma len_string_pos (s : string) : s ≠ "" → (0 < len_string s)%Z.
Proof. destruct s; [done|]. intros _. unfold len_string. cbn [String.length]. lia. Qed.

(** X7. For a header made of the 7 bytes "Bearer " and a token, what the
    middleware does is decided by the token alone: with the empty token it
    refuses the header without asking the verifier; otherwise the verifier
    is given exactly the bytes after the prefix, under [jwtKey], and the
    request is refused as "Invalid token" or passed on under the username
    of the verified claims. *)
Theorem bearer_token_reaches_verifier P (next : HandlerFunc) (c : Context)
    (g : Globals) (tok : string) :
  Header c !! "Authorization" = Some ("Bearer " +:+ tok) →
  authMiddleware P next c g
    = if decide (tok = "")
      then (Abort (reply c (Unauthorized "Authorization header missing or invalid")), g)
      else if err (P tok jwtKey) || negb (Valid (P tok jwtKey))
           then (Abort (reply c (Unauthorized "Invalid token")), g)
           else next (Set_ c "username" (Username (P tok jwtKey))) g.
Proof.
  intros Hh. destruct (header_facts c tok Hh) as (Hget & Hlen & Hpre & Hb).
  unfold authMiddleware. fold (bearer c). rewrite Hb, Hlen, Hpre.
  rewrite (bool_decide_eq_false_2 (GetHeader c "Authorization" = ""))
    by (rewrite Hget; discriminate).
  rewrite (bool_decide_eq_true_2 ("Bearer " = "Bearer ")) by done.
  cbn [orb negb]. rewrite orb_false_r.
  destruct (decide (tok = "")) as [-> | Hne].
  - rewrite bool_decide_eq_true_2; [done|]. vm_compute. discriminate.
  - pose proof (len_string_pos tok Hne).
    by rewrite bool_decide_eq_false_2 by lia.
Qed.

Lemma bearer_token_reaches_verifier_witness :
  authMiddleware accept_good getRoomsHandler (authorized "Bearer good") init
    = if decide ("good" = "")
      then (Abort (reply (authorized "Bearer good")
                     (Unauthorized "Authorization header missing or invalid")), init)
      else if err (accept_good "good" jwtKey) || negb (Valid (accept_good "good" jwtKey))
           then (Abort (reply (authorized "Bearer good") (Unauthorized "Invalid token")),
                 init)
           else getRoomsHandler
                  (Set_ (authorized "Bearer good") "username"
                     (Username (accept_good "good" jwtKey))) init.
Proof.
  apply (bearer_token_reaches_verifier accept_good getRoomsHandler
           (authorized "Bearer good") init "good").
  reflexivity.
Defined.

Lemma verified_bearer P (c : Context) (tok u : string) :
  Header c !! "Authorization" = Some ("Bearer " +:+ tok) →
  tok ≠ "" →
  P tok jwtKey = mkParsed false true u →
  verified P c ∧ Username (P (bearer c) jwtKey) = u.
Proof.
  intros Hh Hne HP. destruct (header_facts c tok Hh) as (_ & Hlen & Hpre & Hb).
  pose proof (len_string_pos tok Hne).
  unfold verified. rewrite Hb, HP. cbn. split_and!; first [done | lia].
Qed.

(** X8. A join that comes in under a verified bearer token is served under
    the username of the token's claims, whatever the context held before:
    the socket is upgraded, the frames echoed to the peer carry that
    username, and no variable is written. *)
Theorem protected_join_echoes_verified_username P J (c : Context) (g : Globals)
    (tok u : string) (conn : Conn) :
  Header c !! "Authorization" = Some ("Bearer " +:+ tok) →
  tok ≠ "" →
  P tok jwtKey = mkParsed false true u →
  Socket c = Some conn →
  status (route P J GET_joinRoom c g).1 = Some 101%Z ∧
  inbound (route P J GET_joinRoom c g).1 = echoes u conn ∧
  (route P J GET_joinRoom c g).2 = g.
Proof.
  intros Hh Hne HP Hs. cbn [route].
  destruct (verified_bearer P c tok u Hh Hne HP) as [Hv Hu].
  destruct (authMiddleware_cases P joinRoomHandler c g)
    as [(Hnv & _) | (_ & ->)]; [done|].
  rewrite Hu.
  destruct (joinRoomHandler_session (Set_ c "username" u) g u conn)
    as (ws & lg & -> & Hout & _).
  - unfold Get, Set_. cbn. apply lookup_insert_eq.
  - done.
  - unfold status, inbound. cbn. by rewrite Hout.
Qed.

Lemma protected_join_echoes_verified_username_witness :
  status (route accept_good issue_good GET_joinRoom
            (join_as_alice "r1" [Some "hi"] None) init).1 = Some 101%Z ∧
  inbound (route accept_good issue_good GET_joinRoom
             (join_as_alice "r1" [Some "hi"] None) init).1
    = echoes "alice" (mkConn [Some "hi"] [] None false) ∧
  (route accept_good issue_good GET_joinRoom
     (join_as_alice "r1" [Some "hi"] None) init).2 = init.
Proof.
  apply (protected_join_echoes_verified_username accept_good issue_good
           (join_as_alice "r1" [Some "hi"] None) init "good" "alice"
           (mkConn [Some "hi"] [] None false));
    first [reflexivity | discriminate].
Defined.

(** X9. Rooms are written by verified requests only: a request that leaves
    [rooms] changed is a createRoom that passed the middleware, and the
    change is the room it submitted, appended. *)
Theorem rooms_change_only_by_verified_create P J (r : Route) (c : Context)
    (g : Globals) :
  rooms (route P J r c g).2 ≠ rooms g →
  r = POST_createRoom ∧ verified P c ∧
  ∃ room, bindRoom (Payload_ c) = Some room ∧
          rooms (route P J r c g).2 = rooms g ++ [room] ∧
          users (route P J r c g).2 = users g.
Proof.
  intros Hchg.
  destruct (route_effect P J r c g)
    as [Hsame | [(_ & u & _ & Hg) | (Hr & Hv & room & Hb & Hg)]].
  - by rewrite Hsame in Hchg.
  - by rewrite Hg in Hchg.
  - split_and!; [done..|]. exists room. by rewrite Hg.
Qed.

Lemma rooms_change_only_by_verified_create_witness :
  POST_createRoom = POST_createRoom ∧
  verified accept_good (createRoom_as_alice "7" "lobby") ∧
  ∃ room, bindRoom (Payload_ (createRoom_as_alice "7" "lobby")) = Some room ∧
          rooms (route accept_good issue_good POST_createRoom
                   (createRoom_as_alice "7" "lobby") init).2 = rooms init ++ [room] ∧
          users (route accept_good issue_good POST_createRoom
                   (createRoom_as_alice "7" "lobby") init).2 = users init.
Proof.
  apply (rooms_change_only_by_verified_create accept_good issue_good POST_createRoom
           (createRoom_as_alice "7" "lobby") init).
  vm_compute. discriminate.
Defined.

(** ** How a session ends *)

(** The loop up to a failing read, on a transport that accepts every write
    it is asked for. *)
Lemma pump_until_read_error (u room : string) (msgs : list string)
    (post : list (option string)) (conn : Conn) :
  (∀ k, wbudget conn = Some k → length msgs ≤ k)%nat →
  pump u room ((Some <$> msgs) ++ None :: post) conn
    = ({| incoming := post;
          outbox := outbox conn ++ (Sprintf_echo u <$> msgs);
          wbudget := (λ k, k - length msgs)%nat <$> wbudget conn;
          closed := closed conn |},
       (LogMessage u room <$> msgs) ++ [LogReadError]).
Proof.
  revert conn. induction msgs as [|m ms IH]; intros conn Hb.
  - cbn. unfold set_incoming. rewrite app_nil_r. do 2 f_equal.
    destruct (wbudget conn); cbn; [|done]. by rewrite Nat.sub_0_r.
  - cbn [fmap list_fmap app pump]. unfold WriteMessage.
    cbn [set_incoming wbudget outbox incoming closed].
    destruct (wbudget conn) as [[|k]|] eqn:Hw.
    + specialize (Hb 0%nat eq_refl). cbn in Hb. lia.
    + rewrite IH; cbn [wbudget outbox closed].
      * by rewrite <- app_assoc.
      * intros k' [= <-]. specialize (Hb (S k) eq_refl). cbn in Hb. lia.
    + rewrite IH; cbn [wbudget outbox closed].
      * by rewrite <- app_assoc.
      * intros k' [=].
Qed.

(** The loop up to a failing write: the transport accepts [k] writes and the
    peer sends more than [k] messages. *)
Lemma pump_until_write_error (u room : string) (msgs : list string)
    (rest : list (option string)) (conn : Conn) (k : nat) :
  wbudget conn = Some k →
  (k < length msgs)%nat →
  pump u room ((Some <$> msgs) ++ rest) conn
    = ({| incoming := (Some <$> drop (S k) msgs) ++ rest;
          outbox := outbox conn ++ (Sprintf_echo u <$> take k msgs);
          wbudget := Some 0%nat;
          closed := closed conn |},
       (LogMessage u room <$> take (S k) msgs) ++ [LogWriteError]).
Proof.
  revert conn k. induction msgs as [|m ms IH]; intros conn k Hw Hk.
  - cbn in Hk. lia.
  - cbn [fmap list_fmap app pump]. unfold WriteMessage.
    cbn [set_incoming wbudget outbox incoming closed]. rewrite Hw.
    destruct k as [|k].
    + unfold set_incoming. cbn. by rewrite Hw, app_nil_r.
    + rewrite (IH _ k); cbn [wbudget outbox closed length] in *.
      * by rewrite <- app_assoc.
      * done.
      * lia.
Qed.

(** X10. A session whose peer fails a read after [msgs] (socket error or
    close), on a transport that takes every write: each of the messages is
    echoed and logged, in order, then the read error is logged and the
    connection closed; what the peer would have delivered after the failing
    read is left unread. *)
Theorem session_ends_at_read_error (c : Context) (g : Globals) (u : string)
    (conn : Conn) (msgs : list string) (post : list (option string)) :
  Get c "username" = Some u →
  Socket c = Some conn →
  incoming conn = (Some <$> msgs) ++ None :: post →
  (∀ k, wbudget conn = Some k → length msgs ≤ k)%nat →
  ∃ ws,
    Written (joinRoomHandler c g).1
      = Some (Upgraded ws ((LogMessage u (Param c "roomID") <$> msgs) ++ [LogReadError])) ∧
    outbox ws = outbox conn ++ (Sprintf_echo u <$> msgs) ∧
    incoming ws = post ∧
    closed ws = true.
Proof.
  intros Hu Hs Hin Hb. unfold joinRoomHandler. rewrite Hu, Hs, Hin.
  rewrite (pump_until_read_error u _ msgs post conn Hb).
  eexists. split; [reflexivity|]. done.
Qed.

Lemma session_ends_at_read_error_witness :
  ∃ ws,
    Written (joinRoomHandler (join "A" "r1" [Some "one"; None; Some "two"]) init).1
      = Some (Upgraded ws
                ((LogMessage "A" (Param (join "A" "r1" [Some "one"; None; Some "two"])
                                    "roomID") <$> ["one"])
                 ++ [LogReadError])) ∧
    outbox ws
      = outbox (mkConn [Some "one"; None; Some "two"] [] None false)
        ++ (Sprintf_echo "A" <$> ["one"]) ∧
    incoming ws = [Some "two"] ∧
    closed ws = true.
Proof.
  apply (session_ends_at_read_error (join "A" "r1" [Some "one"; None; Some "two"]) init
           "A" (mkConn [Some "one"; None; Some "two"] [] None false) ["one"]
           [Some "two"]);
    first [reflexivity | discriminate].
Defined.

(** X11. A session whose transport accepts [k] writes while the peer sends
    more than [k] messages: the first [k] messages are echoed; message
    [k+1] is read and logged and its echo is lost; then the write error is
    logged and the connection closed, and the rest of what the peer sends is
    left unread. *)
Theorem session_ends_at_write_error (c : Context) (g : Globals) (u : string)
    (conn : Conn) (msgs : list string) (rest : list (option string)) (k : nat) :
  Get c "username" = Some u →
  Socket c = Some conn →
  incoming conn = (Some <$> msgs) ++ rest →
  wbudget conn = Some k →
  (k < length msgs)%nat →
  ∃ ws,
    Written (joinRoomHandler c g).1
      = Some (Upgraded ws ((LogMessage u (Param c "roomID") <$> take (S k) msgs)
                           ++ [LogWriteError])) ∧
    outbox ws = outbox conn ++ (Sprintf_echo u <$> take k msgs) ∧
    incoming ws = (Some <$> drop (S k) msgs) ++ rest ∧
    closed ws = true.
Proof.
  intros Hu Hs Hin Hw Hk. unfold joinRoomHandler. rewrite Hu, Hs, Hin.
  rewrite (pump_until_write_error u _ msgs rest conn k Hw Hk).
  eexists. split; [reflexivity|]. done.
Qed.

Lemma session_ends_at_write_error_witness :
  ∃ ws,
    Written (joinRoomHandler
               (join_with_budget "A" "r1" [Some "one"; Some "two"; Some "three"] 1)
               init).1
      = Some (Upgraded ws
                ((LogMessage "A"
                    (Param (join_with_budget "A" "r1"
                              [Some "one"; Some "two"; Some "three"] 1) "roomID")
                    <$> take 2 ["one"; "two"; "three"])
                 ++ [LogWriteError])) ∧
    outbox ws
      = outbox (mkConn [Some "one"; Some "two"; Some "three"] [] (Some 1%nat) false)
        ++ (Sprintf_echo "A" <$> take 1 ["one"; "two"; "three"]) ∧
    incoming ws = (Some <$> drop 2 ["one"; "two"; "three"]) ++ [] ∧
    closed ws = true.
Proof.
  apply (session_ends_at_write_error
           (join_with_budget "A" "r1" [Some "one"; Some "two"; Some "three"] 1) init
           "A" (mkConn [Some "one"; Some "two"; Some "three"] [] (Some 1%nat) false)
           ["one"; "two"; "three"] [] 1);
    first [reflexivity | (cbn; lia)].
Defined.

(** ** Status codes *)

Lemma status_reply (c : Context) (code : Z) (obj : Body) :
  status (reply c (JSON code obj)) = Some code.
Proof. reflexivity. Qed.

(** X13. Each of the six handlers of [Route] answers with one of a few
    status codes: signin 200, 400, 401 or 500; signup 200 or 400; the
    protected ones 401 or their handler's 200 (400 too for createRoom), a
    join 401 or 101; only a join whose upgrade failed leaves the answer to
    the upgrader.  None of them answers 201 or 404, which the published
    contract declares for signup and createRoom (201) and for getRooms and
    getClients (404).  (The static files of [r.Static] are not one of these
    handlers.) *)
Theorem handlers_never_answer_201_or_404 P J (r : Route) (c : Context) (g : Globals) :
  match status (route P J r c g).1 with
  | Some code => code ∈ answers r ∧ code ≠ 201%Z ∧ code ≠ 404%Z
  | None => r = GET_joinRoom ∧ Socket c = None
  end ∧
  201%Z ∈ docs.responses "/signup" "post" ∧
  201%Z ∈ docs.responses "/auth/ws/createRoom" "post" ∧
  404%Z ∈ docs.responses "/auth/ws/getRooms" "get" ∧
  404%Z ∈ docs.responses "/auth/ws/getClients/{roomID}" "get".
Proof.
  split; [|split_and!; apply list_elem_of_In; vm_compute; auto 10].
  assert (Hin : ∀ code, code ∈ answers r → code ∈ answers r ∧ code ≠ 201%Z ∧ code ≠ 404%Z).
  { intros code Hc. split; [done|]. apply list_elem_of_In in Hc.
    destruct r; cbn in Hc;
      repeat (destruct Hc as [<- | Hc]; [split; discriminate|]); destruct Hc. }
  destruct r; cbn [route].
  - unfold handleSignin. destruct (bindUser (Payload_ c)) as [user|].
    + destruct (list_find _ (users g)) as [found|].
      * destruct (J (User.Login user)); cbn; apply Hin; in_list.
      * cbn. apply Hin. in_list.
    + cbn. apply Hin. in_list.
  - unfold handleSignup. destruct (bindUser (Payload_ c));
      cbn [fst]; rewrite status_reply; apply Hin; in_list.
  - destruct (authMiddleware_cases P getRoomsHandler c g)
      as [(_ & msg & ->) | (_ & ->)].
    + cbn. apply Hin. in_list.
    + unfold getRoomsHandler. destruct (decide _); cbn; apply Hin; in_list.
  - destruct (authMiddleware_cases P createRoomHandler c g)
      as [(_ & msg & ->) | (_ & ->)].
    + cbn. apply Hin. in_list.
    + unfold createRoomHandler. destruct (bindRoom _); cbn; apply Hin; in_list.
  - destruct (authMiddleware_cases P joinRoomHandler c g)
      as [(_ & msg & ->) | (_ & ->)].
    + cbn. apply Hin. in_list.
    + assert (Hget : Get (Set_ c "username" (Username (P (bearer c) jwtKey))) "username"
                     = Some (Username (P (bearer c) jwtKey)))
        by (unfold Get, Set_; cbn; apply lookup_insert_eq).
      unfold joinRoomHandler. rewrite Hget.
      cbn [Socket Set_]. destruct (Socket c) as [conn|]; [|done].
      destruct (pump _ _ _ _). cbn. apply Hin. in_list.
  - destruct (authMiddleware_cases P getClientsHandler c g)
      as [(_ & msg & ->) | (_ & ->)]; cbn; apply Hin; in_list.
Qed.

(** ** The join behind the middleware *)

(** The three ways out of the middleware. *)
Lemma authMiddleware_shape P (next : HandlerFunc) (c : Context) (g : Globals) :
  authMiddleware P next c g
    = (Abort (reply c (Unauthorized "Authorization header missing or invalid")), g)
  ∨ authMiddleware P next c g = (Abort (reply c (Unauthorized "Invalid token")), g)
  ∨ (verified P c ∧
     authMiddleware P next c g
       = next (Set_ c "username" (Username (P (bearer c) jwtKey))) g).
Proof.
  unfold authMiddleware, verified, bearer.
  set (h := GetHeader c "Authorization").
  set (t := P (String.substring 7 (String.length h - 7)%nat h) jwtKey).
  destruct (bool_decide (h = "") || bool_decide (len_string h ≤ 7)%Z
            || negb (bool_decide (String.substring 0 7 h = "Bearer "))) eqn:Hhdr;
    [by left|].
  destruct (err t || negb (Valid t)) eqn:Htok; [by right; left|].
  right. right.
  apply orb_false_elim in Hhdr as [Hhdr Hpre].
  apply orb_false_elim in Hhdr as [_ Hlen].
  apply orb_false_elim in Htok as [Herr Hval].
  apply bool_decide_eq_false_1 in Hlen.
  apply negb_false_iff, bool_decide_eq_true_1 in Hpre.
  apply negb_false_iff in Hval.
  split_and!; first [done | lia].
Qed.

(** X14. Behind the middleware the authentication check of
    [joinRoomHandler] itself never fires: a join on the protected route is
    never answered "User not authenticated"; when it is answered 401, the
    middleware refused it and aborted the chain, so that the socket was not
    upgraded and the peer received nothing. *)
Theorem join_401_comes_from_middleware P J (c : Context) (g : Globals) :
  Written (route P J GET_joinRoom c g).1
    ≠ Some (Unauthorized "User not authenticated") ∧
  (status (route P J GET_joinRoom c g).1 = Some http.StatusUnauthorized →
   ¬ verified P c ∧
   Aborted (route P J GET_joinRoom c g).1 = true ∧
   inbound (route P J GET_joinRoom c g).1 = []).
Proof.
  cbn [route].
  destruct (authMiddleware_cases P joinRoomHandler c g)
    as [(Hnv & _) | (Hv & Hpass)].
  - destruct (authMiddleware_shape P joinRoomHandler c g)
      as [-> | [-> | (Hv & _)]]; [| |done]; (split; [discriminate|]); by intros _.
  - rewrite Hpass.
    assert (Hget : Get (Set_ c "username" (Username (P (bearer c) jwtKey))) "username"
                   = Some (Username (P (bearer c) jwtKey)))
      by (unfold Get, Set_; cbn; apply lookup_insert_eq).
    unfold joinRoomHandler. rewrite Hget. cbn [Socket Set_].
    destruct (Socket c) as [conn|].
    + destruct (pump _ _ _ _). cbn [fst]. split; discriminate.
    + cbn [fst]. split; discriminate.
Qed.

(** ** The frame format *)

Lemma append_assoc (a b d : string) : (a +:+ b) +:+ d = a +:+ (b +:+ d).
Proof.
  induction a as [|x a IH]; [done|].
  change (String x ((a +:+ b) +:+ d) = String x (a +:+ (b +:+ d))). by rewrite IH.
Qed.

Lemma length_append (a b : string) :
  String.length (a +:+ b) = (String.length a + String.length b)%nat.
Proof.
  induction a as [|x a IH]; [done|].
  change (S (String.length (a +:+ b)) = S (String.length a + String.length b)).
  by rewrite IH.
Qed.

(** X15. A frame does not tell its sender apart: the echo of the message
    [m] for the user named [u], ": ", [x] is, byte for byte, the echo of
    the message [x], ": ", [m] for the user named [u], and these are two
    different usernames and two different messages. *)
Theorem echo_frame_is_ambiguous (u x m : string) :
  Sprintf_echo (u +:+ ": " +:+ x) m = Sprintf_echo u (x +:+ ": " +:+ m) ∧
  u +:+ ": " +:+ x ≠ u ∧
  x +:+ ": " +:+ m ≠ m.
Proof.
  split_and!.
  - unfold Sprintf_echo. by rewrite !append_assoc.
  - intros Heq. apply (f_equal String.length) in Heq.
    rewrite !length_append in Heq. cbn in Heq. lia.
  - intros Heq. apply (f_equal String.length) in Heq.
    rewrite !length_append in Heq. cbn in Heq. lia.
Qed.
